(** * p_managment: daily price history kept in SQLite

    A shallow embedding of [download_data.py] (ticker loading, incremental
    sync planning, [upsert_to_db]) and of [remove_abondoned_data.py] (the
    staleness sweep), followed by the properties of the written
    specification that these two scripts are checked against.

    Conventions of the embedding:
    - a calendar date ([datetime.date], a midnight [pd.Timestamp]) is its
      proleptic Gregorian ordinal, as [date.toordinal()] gives it;
    - a 64-bit float is its IEEE-754 bit pattern, a [Z] in [0, 2^64);
    - a table is the list of its rows in rowid order;
    - code that can raise returns a [result], a script returns it next to
      the database it leaves behind and to what it printed. *)

From Stdlib Require Import ZArith List Bool String Ascii Lia DecimalString.
Import ListNotations.
Local Open Scope string_scope.
Local Open Scope Z_scope.

(* ====================================================================== *)
(** ** Calendar arithmetic (Python's [datetime], ordinal based)            *)
(* ====================================================================== *)

Module Calendar.

Definition is_leap (year : Z) : bool :=
  (year mod 4 =? 0) && (negb (year mod 100 =? 0) || (year mod 400 =? 0)).

Definition days_before_year (year : Z) : Z :=
  let y := year - 1 in y * 365 + y / 4 - y / 100 + y / 400.

Definition days_in_month (year month : Z) : Z :=
  if (month =? 2) && is_leap year then 29
  else nth (Z.to_nat month) [0; 31; 28; 31; 30; 31; 30; 31; 31; 30; 31; 30; 31] 0.

Definition DAYS_BEFORE_MONTH : list Z :=
  [0; 0; 31; 59; 90; 120; 151; 181; 212; 243; 273; 304; 334].

Definition days_before_month (year month : Z) : Z :=
  nth (Z.to_nat month) DAYS_BEFORE_MONTH 0
  + (if (2 <? month) && is_leap year then 1 else 0).

(** [date(year, month, day).toordinal()] *)
Definition ymd2ord (year month day : Z) : Z :=
  days_before_year year + days_before_month year month + day.

Definition DI400Y : Z := 146097.
Definition DI100Y : Z := 36524.
Definition DI4Y : Z := 1461.

(** [date.fromordinal(n)] as (year, month, day) *)
Definition ord2ymd (ordinal : Z) : Z * Z * Z :=
  let n := ordinal - 1 in
  let n400 := n / DI400Y in
  let n := n mod DI400Y in
  let year := n400 * 400 + 1 in
  let n100 := n / DI100Y in
  let n := n mod DI100Y in
  let n4 := n / DI4Y in
  let n := n mod DI4Y in
  let n1 := n / 365 in
  let n := n mod 365 in
  let year := year + n100 * 100 + n4 * 4 + n1 in
  if (n1 =? 4) || (n100 =? 4) then (year - 1, 12, 31)
  else
    let leapyear := (n1 =? 3) && (negb (n4 =? 24) || (n100 =? 3)) in
    let month := Z.shiftr (n + 50) 5 in
    let preceding :=
      nth (Z.to_nat month) DAYS_BEFORE_MONTH 0
      + (if (2 <? month) && leapyear then 1 else 0) in
    if n <? preceding then
      let month := month - 1 in
      let preceding :=
        preceding
        - ((if (month =? 2) && leapyear then 29
            else nth (Z.to_nat month)
                   [0; 31; 28; 31; 30; 31; 30; 31; 31; 30; 31; 30; 31] 0)) in
      (year, month, n - preceding + 1)
    else (year, month, n - preceding + 1).

Definition digit_char (d : Z) : ascii := ascii_of_N (Z.to_N (48 + d mod 10)).

Definition digit_value (c : ascii) : option Z :=
  let n := Z.of_N (N_of_ascii c) in
  if (48 <=? n) && (n <=? 57) then Some (n - 48) else None.

Definition pad2 (n : Z) : string :=
  String (digit_char (n / 10)) (String (digit_char n) EmptyString).

Definition pad4 (n : Z) : string :=
  String (digit_char (n / 1000)) (String (digit_char (n / 100))
    (String (digit_char (n / 10)) (String (digit_char n) EmptyString))).

(** [date.isoformat()]: YYYY-MM-DD *)
Definition isoformat (ordinal : Z) : string :=
  let '(y, m, d) := ord2ymd ordinal in
  pad4 y ++ "-" ++ pad2 m ++ "-" ++ pad2 d.

Definition number2 (a b : ascii) : option Z :=
  match digit_value a, digit_value b with
  | Some x, Some y => Some (10 * x + y)
  | _, _ => None
  end.

Definition number4 (a b c d : ascii) : option Z :=
  match number2 a b, number2 c d with
  | Some x, Some y => Some (100 * x + y)
  | _, _ => None
  end.

(** Parsing of a calendar date written as YYYY-MM-DD, the form in which
    [upsert_to_db] stores the [date] column. [None] stands for every
    string that is not such a date. *)
Definition fromisoformat (s : string) : option Z :=
  match list_ascii_of_string s with
  | [y1; y2; y3; y4; s1; m1; m2; s2; d1; d2] =>
      if (s1 =? "-")%char && (s2 =? "-")%char then
        match number4 y1 y2 y3 y4, number2 m1 m2, number2 d1 d2 with
        | Some y, Some m, Some d =>
            if (1 <=? y) && (1 <=? m) && (m <=? 12)
               && (1 <=? d) && (d <=? days_in_month y m)
            then Some (ymd2ord y m d) else None
        | _, _, _ => None
        end
      else None
  | _ => None
  end.

End Calendar.

(* ====================================================================== *)
(** ** Values                                                              *)
(* ====================================================================== *)

(** IEEE-754 binary64, by bit pattern. *)
Definition float64 := Z.

Definition exponent_bits (x : float64) : Z := Z.land (Z.shiftr x 52) 2047.
Definition mantissa_bits (x : float64) : Z := Z.land x (Z.ones 52).

Definition isnan (x : float64) : bool :=
  (exponent_bits x =? 2047) && negb (mantissa_bits x =? 0).

(** What a DataFrame cell can hold. *)
Inductive pyval :=
| PyNone                      (* None *)
| PyNA                        (* pd.NA *)
| NaT                         (* pd.NaT *)
| PyFloat (x : float64)       (* float *)
| NpFloat (x : float64)       (* numpy.float64 *)
| PyInt (n : Z)               (* int *)
| NpInt (n : Z)               (* numpy.int64 *)
| PyStr (s : string)          (* str *)
| Timestamp (ordinal : Z)     (* pd.Timestamp at midnight *)
| PyObject (repr : string).   (* any other object, known by its str() *)

(** What SQLite stores in a column without TEXT affinity. *)
Inductive sqlval :=
| Null
| Integer (n : Z)
| Real (x : float64)
| Text (s : string).

Inductive exn :=
| KeyError (key : string)
| NameError (name : string)
| ValueError (msg : string)
| InterfaceError (msg : string)     (* sqlite3: unsupported parameter type *)
| OperationalError (msg : string).  (* sqlite3: no such table *)

(** The result of running a piece of Python: a value, or an exception. *)
Inductive result (A : Type) :=
| Returned (v : A)
| Raised (e : exn).
Arguments Returned {A} v.
Arguments Raised {A} e.

Definition bind {A B} (m : result A) (k : A -> result B) : result B :=
  match m with
  | Returned v => k v
  | Raised e => Raised e
  end.

Notation "x <- m ;; k" := (bind m (fun x => k))
  (at level 100, m at next level, right associativity).

(** [pd.isna] / [pd.isnull] on a scalar. *)
Definition isna (v : pyval) : bool :=
  match v with
  | PyNone | PyNA | NaT => true
  | PyFloat x | NpFloat x => isnan x
  | _ => false
  end.

Definition notnull (v : pyval) : bool := negb (isna v).

(** [v.item() if hasattr(v, "item") else v]: numpy scalars become native. *)
Definition item_or_self (v : pyval) : pyval :=
  match v with
  | NpFloat x => PyFloat x
  | NpInt n => PyInt n
  | _ => v
  end.

Definition decimal (n : Z) : string := NilZero.string_of_int (Z.to_int n).

(** Behaviour of pandas and of SQLite that the embedding leaves open:
    the decimal rendering of a finite float by Python ([str]) and by SQLite
    (TEXT affinity), the date parser of pandas, and whether
    [DataFrame.where(cond, None)] keeps the dtype of a column (then None is
    cast back to the column's own missing value, as current pandas does
    for float64) or turns it into an object column holding None (as older
    pandas did). *)
Class Libraries := {
  float_str : float64 -> string;
  real_text : float64 -> string;
  keeps_dtype : string -> bool;
  (** [pd.to_datetime(s)] as the ordinal of its calendar day; [None] when
      it gives no Timestamp. It reads a YYYY-MM-DD date as that date. *)
  to_datetime : string -> option Z;
  to_datetime_iso :
    forall s d, Calendar.fromisoformat s = Some d -> to_datetime s = Some d
}.

Section Embedding.
Context `{Libraries}.

(** [Series.astype(str)], cell by cell. *)
Definition astype_str (v : pyval) : string :=
  match v with
  | PyNone => "None"
  | PyNA => "<NA>"
  | NaT => "NaT"
  | PyFloat x | NpFloat x => if isnan x then "nan" else float_str x
  | PyInt n | NpInt n => decimal n
  | PyStr s => s
  | Timestamp d => Calendar.isoformat d
  | PyObject repr => repr
  end.

(* ---------------------------------------------------------------------- *)
(** *** DataFrames                                                         *)
(* ---------------------------------------------------------------------- *)

(** A row maps a column label to its cell; only the labels listed in
    [columns] are meaningful. [rows] pairs each row with its index label. *)
Definition Series := string -> pyval.

Record DataFrame := {
  index_name : option string;
  columns : list string;
  rows : list (pyval * Series)
}.

Definition has_column (df : DataFrame) (col : string) : bool :=
  existsb (String.eqb col) (columns df).

(** [df.empty]: some axis has length 0. *)
Definition empty (df : DataFrame) : bool :=
  match rows df, columns df with
  | [], _ | _, [] => true
  | _, _ => false
  end.

Definition series_of (cells : list (string * pyval)) : Series :=
  fun col =>
    match find (fun kv => String.eqb (fst kv) col) cells with
    | Some kv => snd kv
    | None => PyNA
    end.

Definition map_rows (f : Series -> Series) (df : DataFrame) : DataFrame :=
  {| index_name := index_name df;
     columns := columns df;
     rows := map (fun ir => (fst ir, f (snd ir))) (rows df) |}.

(** [df.rename(columns=mapper)] *)
Definition new_label (mapper : list (string * string)) (c : string) : string :=
  match find (fun kv => String.eqb (fst kv) c) mapper with
  | Some kv => snd kv
  | None => c
  end.

Definition rename (mapper : list (string * string)) (df : DataFrame) : DataFrame :=
  {| index_name := index_name df;
     columns := map (new_label mapper) (columns df);
     rows :=
       map (fun ir =>
              (fst ir,
               fun col =>
                 match find (fun c => String.eqb (new_label mapper c) col)
                            (columns df) with
                 | Some c => snd ir c
                 | None => PyNA
                 end)) (rows df) |}.

(** [df[col] = v] for a scalar [v] *)
Definition set_column (col : string) (v : pyval) (df : DataFrame) : DataFrame :=
  {| index_name := index_name df;
     columns := if has_column df col then columns df else (columns df ++ [col])%list;
     rows :=
       map (fun ir => (fst ir, fun c => if String.eqb c col then v else snd ir c))
           (rows df) |}.

(** [df[cols]] *)
Definition select (cols : list string) (df : DataFrame) : DataFrame :=
  {| index_name := index_name df; columns := cols; rows := rows df |}.

(** [df[col] = df[col].astype(str)] *)
Definition column_astype_str (col : string) (df : DataFrame) : DataFrame :=
  map_rows (fun r c => if String.eqb c col then PyStr (astype_str (r c)) else r c) df.

(** [df.where(pd.notnull(df), None)] *)
Definition where_series (r : Series) : Series :=
  fun c => if notnull (r c) then r c
           else if keeps_dtype c then r c else PyNone.

Definition where_notnull_None (df : DataFrame) : DataFrame :=
  map_rows where_series df.

(** [df.reset_index(inplace=True)]: the index becomes the first column
    and is replaced by 0, 1, 2, ... *)
Fixpoint renumber (name : string) (k : Z) (rs : list (pyval * Series))
  : list (pyval * Series) :=
  match rs with
  | [] => []
  | (i, r) :: rs' =>
      (PyInt k, fun c => if String.eqb c name then i else r c)
        :: renumber name (k + 1) rs'
  end.

Definition reset_index (df : DataFrame) : result DataFrame :=
  let name := match index_name df with Some n => n | None => "index" end in
  if has_column df name
  then Raised (ValueError "cannot insert, already exists")
  else Returned {| index_name := None;
                   columns := name :: columns df;
                   rows := renumber name 0 (rows df) |}.

(* ---------------------------------------------------------------------- *)
(** *** Storage: table [stock_data]                                        *)
(* ---------------------------------------------------------------------- *)

(** One row of [stock_data]. [ticker] and [date] have TEXT affinity, so
    they hold text or NULL; the six REAL columns are kept as they were
    bound. *)
Record StockRow := {
  ticker : option string;
  date : option string;
  open : sqlval;
  high : sqlval;
  low : sqlval;
  close : sqlval;
  adj_close : sqlval;
  volume : sqlval
}.

Definition table := list StockRow.

(** PRIMARY KEY (ticker, date). SQLite lets a NULL into such a key and
    never takes two NULLs for equal, so a row with a NULL key column
    conflicts with no other row. *)
Definition primary_key (r : StockRow) : option (string * string) :=
  match ticker r, date r with
  | Some t, Some d => Some (t, d)
  | _, _ => None
  end.

Definition same_key (k1 k2 : string * string) : bool :=
  String.eqb (fst k1) (fst k2) && String.eqb (snd k1) (snd k2).

Definition conflicts (new old : StockRow) : bool :=
  match primary_key new, primary_key old with
  | Some k1, Some k2 => same_key k1 k2
  | _, _ => false
  end.

(** INSERT OR REPLACE: the conflicting row is deleted, the new row is
    appended with a fresh rowid. *)
Definition insert_or_replace (new : StockRow) (tbl : table) : table :=
  (filter (fun old => negb (conflicts new old)) tbl ++ [new])%list.

(** The table after a batch, in closed form: the rows no row of the batch
    conflicts with, then the last write of each key of the batch. *)
Definition hits (rs : list StockRow) (old : StockRow) : bool :=
  existsb (fun r => conflicts r old) rs.

Fixpoint last_writes (rs : list StockRow) : list StockRow :=
  match rs with
  | [] => []
  | r :: rs' => if hits rs' r then last_writes rs' else r :: last_writes rs'
  end.

(** No two rows carry the same (ticker, date) pair. *)
Definition key_pair (r : StockRow) : option string * option string :=
  (ticker r, date r).

Definition unique_keys (tbl : table) : Prop := NoDup (map key_pair tbl).

(** Binding of a Python value by the sqlite3 driver: None, int, float and
    str are supported, a datetime goes through the default adapter, and
    SQLite keeps a NaN as NULL. *)
Definition bind_value (v : pyval) : result sqlval :=
  match v with
  | PyNone => Returned Null
  | PyFloat x | NpFloat x => Returned (if isnan x then Null else Real x)
  | PyInt n => Returned (Integer n)
  | PyStr s => Returned (Text s)
  | Timestamp d => Returned (Text (Calendar.isoformat d ++ " 00:00:00"))
  | PyNA | NaT | NpInt _ | PyObject _ =>
      Raised (InterfaceError "Error binding parameter: type is not supported")
  end.

(** The same for a column with TEXT affinity. *)
Definition bind_text (v : pyval) : result (option string) :=
  match bind_value v with
  | Returned Null => Returned None
  | Returned (Integer n) => Returned (Some (decimal n))
  | Returned (Real x) => Returned (Some (real_text x))
  | Returned (Text s) => Returned (Some s)
  | Raised e => Raised e
  end.

Definition expected_cols : list string :=
  ["ticker"; "date"; "open"; "high"; "low"; "close"; "adj_close"; "volume"].

Definition bind_row (params : Series) : result StockRow :=
  t <- bind_text (params "ticker") ;;
  d <- bind_text (params "date") ;;
  o <- bind_value (params "open") ;;
  h <- bind_value (params "high") ;;
  l <- bind_value (params "low") ;;
  c <- bind_value (params "close") ;;
  a <- bind_value (params "adj_close") ;;
  v <- bind_value (params "volume") ;;
  Returned {| ticker := t; date := d; open := o; high := h; low := l;
              close := c; adj_close := a; volume := v |}.

(** [conn.execute(text("INSERT OR REPLACE INTO stock_data ..."), params)] *)
Definition execute_insert (params : Series) (conn : table) : result table :=
  r <- bind_row params ;; Returned (insert_or_replace r conn).

(** [with engine.begin() as conn: body]: commit when the body returns,
    roll back when it raises. *)
Definition engine_begin {S A} (body : S -> result A * S) (db : S) : result A * S :=
  match body db with
  | (Returned v, db') => (Returned v, db')
  | (Raised e, _) => (Raised e, db)
  end.

(** [SELECT MAX(date) FROM stock_data WHERE ticker=:ticker] *)
Definition max_text (acc : option string) (d : option string) : option string :=
  match acc, d with
  | Some a, Some b => if String.leb a b then Some b else Some a
  | None, _ => d
  | _, None => acc
  end.

Definition select_max_date (t : string) (tbl : table) : option string :=
  fold_left max_text
    (map date
       (filter (fun r => match ticker r with
                         | Some t' => String.eqb t' t
                         | None => false
                         end) tbl))
    None.

Definition get_latest_date (t : string) (tbl : table) : option string :=
  match select_max_date t tbl with
  | Some "" => None
  | r => r
  end.

(* ---------------------------------------------------------------------- *)
(** *** [upsert_to_db]                                                     *)
(* ---------------------------------------------------------------------- *)

Definition column_names : list (string * string) :=
  [("Date", "date"); ("Open", "open"); ("High", "high"); ("Low", "low");
   ("Close", "close"); ("Adj Close", "adj_close"); ("Volume", "volume")].

(** [for col in cols: if col not in df.columns: df[col] = pd.NA] *)
Definition add_columns (cols : list string) (df : DataFrame) : DataFrame :=
  fold_left (fun df col => if has_column df col then df else set_column col PyNA df)
            cols df.

Definition add_missing (df : DataFrame) : DataFrame :=
  add_columns expected_cols df.

(** The frame after lines 65 to 79, and after line 80. *)
Definition prepared (df : DataFrame) : DataFrame :=
  column_astype_str "date"
    (select expected_cols (add_missing (rename column_names df))).

Definition normalize (df : DataFrame) : DataFrame :=
  where_notnull_None (prepared df).

(** The parameter dictionary of one row (lines 85 to 89). *)
Definition params_of (row : Series) : Series :=
  fun col =>
    let v := item_or_self (row col) in
    if isna v then PyNone else v.

Fixpoint insert_rows (rs : list (pyval * Series)) (conn : table)
  : result unit * table :=
  match rs with
  | [] => (Returned tt, conn)
  | (_, row) :: rs' =>
      match execute_insert (params_of row) conn with
      | Returned conn' => insert_rows rs' conn'
      | Raised e => (Raised e, conn)
      end
  end.

(** Whether the insert of a row goes through: it raises exactly when one
    of the row's parameters cannot be bound, the table plays no part. *)
Definition binds (ir : pyval * Series) (r : StockRow) : Prop :=
  bind_row (params_of (snd ir)) = Returned r.

Definition fails_to_bind (ir : pyval * Series) : Prop :=
  exists e, bind_row (params_of (snd ir)) = Raised e.

(** The rows of a batch written one after the other. *)
Definition apply_all (rs : list StockRow) (tbl : table) : table :=
  fold_left (fun conn r => insert_or_replace r conn) rs tbl.

(** [upsert_to_db(df)]: the value it returns, and the table it leaves. *)
Definition upsert_to_db (df : DataFrame) (tbl : table) : result pyval * table :=
  if empty df then (Returned PyNone, tbl)
  else
    match engine_begin (insert_rows (rows (normalize df))) tbl with
    | (Returned _, tbl') => (Returned PyNone, tbl')
    | (Raised e, tbl') => (Raised e, tbl')
    end.

(** Lines 130 and 131: the fetched bars are stamped with the symbol and
    written. *)
Definition reconcile (t : string) (raw_bars : DataFrame) (tbl : table)
  : result pyval * table :=
  upsert_to_db (set_column "ticker" (PyStr t) raw_bars) tbl.

(** The six price and volume columns, and their value in a stored row. *)
Definition numeric_cols : list string :=
  ["open"; "high"; "low"; "close"; "adj_close"; "volume"].

Definition field (r : StockRow) (col : string) : sqlval :=
  if String.eqb col "open" then open r
  else if String.eqb col "high" then high r
  else if String.eqb col "low" then low r
  else if String.eqb col "close" then close r
  else if String.eqb col "adj_close" then adj_close r
  else if String.eqb col "volume" then volume r
  else Null.

(* ---------------------------------------------------------------------- *)
(** *** Loading the tickers (lines 26 to 31)                               *)
(* ---------------------------------------------------------------------- *)

(** The CSV file as [pd.read_csv] returns it: named columns of text cells,
    an empty cell being the missing value ([None] here, NaN in pandas). *)
Definition csv_frame := list (string * list (option string)).

Definition csv_column (df : csv_frame) (name : string)
  : result (list (option string)) :=
  match find (fun kv => String.eqb (fst kv) name) df with
  | Some kv => Returned (snd kv)
  | None => Raised (KeyError name)
  end.

Definition is_space (c : ascii) : bool :=
  let n := N_of_ascii c in
  ((9 <=? n) && (n <=? 13) || (28 <=? n) && (n <=? 32))%N.

Fixpoint lstrip (s : string) : string :=
  match s with
  | String c s' => if is_space c then lstrip s' else s
  | EmptyString => s
  end.

Fixpoint rstrip (s : string) : string :=
  match s with
  | String c s' =>
      match rstrip s' with
      | EmptyString => if is_space c then EmptyString else String c EmptyString
      | t => String c t
      end
  | EmptyString => s
  end.

(** [str.strip()] *)
Definition strip (s : string) : string := rstrip (lstrip s).

Definition upper_char (c : ascii) : ascii :=
  let n := N_of_ascii c in
  if ((97 <=? n) && (n <=? 122))%N then ascii_of_N (n - 32) else c.

(** [str.upper()], on the ASCII letters *)
Fixpoint upper (s : string) : string :=
  match s with
  | String c s' => String (upper_char c) (upper s')
  | EmptyString => s
  end.

(** [Series.astype(str)] on an object column: the missing value becomes
    the text "nan". *)
Definition series_astype_str (col : list (option string)) : list (option string) :=
  map (fun cell => match cell with
                   | Some s => Some s
                   | None => Some "nan"
                   end) col.

(** [Series.str.f()]: missing cells stay missing. *)
Definition str_accessor (f : string -> string) (col : list (option string))
  : list (option string) :=
  map (option_map f) col.

Fixpoint dropna (col : list (option string)) : list (option string) :=
  match col with
  | [] => []
  | None :: col' => dropna col'
  | Some s :: col' => Some s :: dropna col'
  end.

Definition cell_eqb (a b : option string) : bool :=
  match a, b with
  | Some x, Some y => String.eqb x y
  | None, None => true
  | _, _ => false
  end.

(** [Series.unique()]: first occurrences, in order of appearance. *)
Fixpoint unique_from (seen col : list (option string)) : list (option string) :=
  match col with
  | [] => []
  | c :: col' =>
      if existsb (cell_eqb c) seen then unique_from seen col'
      else c :: unique_from (c :: seen) col'
  end.

Definition unique (col : list (option string)) : list (option string) :=
  unique_from [] col.

(** [.tolist()] of a column of text *)
Fixpoint tolist (col : list (option string)) : list string :=
  match col with
  | [] => []
  | Some s :: col' => s :: tolist col'
  | None :: col' => "nan" :: tolist col'
  end.

Definition ticker_pipeline (col : list (option string)) : list string :=
  tolist (unique (dropna
    (str_accessor upper (str_accessor strip (series_astype_str col))))).

Definition load_tickers (df_tickers : csv_frame) : result (list string) :=
  match csv_column df_tickers "Ticker" with
  | Returned col => Returned (ticker_pipeline col)
  | Raised _ =>
      col <- csv_column df_tickers "symbol" ;; Returned (ticker_pipeline col)
  end.

(* ---------------------------------------------------------------------- *)
(** *** The sync loop (lines 96 to 132)                                    *)
(* ---------------------------------------------------------------------- *)

Definition years : Z := 20.
Definition abandon_days : Z := 180.

Definition start_full (today : Z) : Z := today - years * 365.

(** What the loop body decides before it calls the provider. [FETCH]
    carries the range it prints, first day and last day. *)
Inductive SyncDecision :=
| SKIP_ABANDONED (days_since_update : Z)
| SKIP_CURRENT
| FETCH (start_date end_date : Z).

Definition truthy (latest : option string) : option string :=
  match latest with
  | Some "" => None
  | _ => latest
  end.

Definition plan (today : Z) (latest : option string) : result SyncDecision :=
  match truthy latest with
  | Some s =>
      match to_datetime s with
      | None => Raised (ValueError "to_datetime")
      | Some last_date =>
          let days_since_update := today - last_date in
          if days_since_update >? abandon_days
          then Returned (SKIP_ABANDONED days_since_update)
          else
            let start_date := last_date + 1 in
            if start_date >? today then Returned SKIP_CURRENT
            else Returned (FETCH start_date today)
      end
  | None => Returned (FETCH (start_full today) today)
  end.

(** The provider: [yf.download(ticker, start=, end=)], [end] exclusive. *)
Definition provider := string -> Z -> Z -> result DataFrame.

Inductive message :=
| Processing (t : string)
| Abandoned (days_since_update : Z)
| AlreadyUpToDate
| Fetching (start_date today : Z)
| NoNewData (t : string)
| AddedUpdated (n : nat) (t : string)
| AbandonedStocks (listing : list (option string * option Z))
| Deleted (t : option string)
| NoTickersTable.

Definition sync_ticker (yf_download : provider) (today : Z) (t : string)
    (tbl : table) : result unit * table * list message :=
  match plan today (get_latest_date t tbl) with
  | Raised e => (Raised e, tbl, [Processing t])
  | Returned (SKIP_ABANDONED d) => (Returned tt, tbl, [Processing t; Abandoned d])
  | Returned SKIP_CURRENT => (Returned tt, tbl, [Processing t; AlreadyUpToDate])
  | Returned (FETCH start_date end_date) =>
      let log := [Processing t; Fetching start_date end_date] in
      match yf_download t start_date (today + 1) with
      | Raised e => (Raised e, tbl, log)
      | Returned df =>
          if empty df then (Returned tt, tbl, log ++ [NoNewData t])%list
          else
            match reset_index df with
            | Raised e => (Raised e, tbl, log)
            | Returned df =>
                match reconcile t df tbl with
                | (Returned _, tbl') =>
                    (Returned tt, tbl',
                     (log ++ [AddedUpdated (List.length (rows df)) t])%list)
                | (Raised e, tbl') => (Raised e, tbl', log)
                end
            end
      end
  end.

Fixpoint sync_all (yf_download : provider) (today : Z) (tickers : list string)
    (tbl : table) : result unit * table * list message :=
  match tickers with
  | [] => (Returned tt, tbl, [])
  | t :: tickers' =>
      match sync_ticker yf_download today t tbl with
      | (Returned _, tbl', log) =>
          let '(r, tbl'', log') := sync_all yf_download today tickers' tbl' in
          (r, tbl'', (log ++ log')%list)
      | (Raised e, tbl', log) => (Raised e, tbl', log)
      end
  end.

(* ---------------------------------------------------------------------- *)
(** *** The database file and the two scripts                              *)
(* ---------------------------------------------------------------------- *)

(** A row of the optional table [tickers], whose schema this repository
    does not own: its [symbol] column and whatever else it carries. *)
Record TickersRow := {
  symbol : option string;
  other_columns : list sqlval
}.

Record database := {
  stock_data : option table;
  tickers : option (list TickersRow)
}.

Definition unique_db (db : database) : Prop :=
  forall tbl, stock_data db = Some tbl -> unique_keys tbl.

(** CREATE TABLE IF NOT EXISTS stock_data *)
Definition create_table (db : database) : table :=
  match stock_data db with
  | Some tbl => tbl
  | None => []
  end.

(** [download_data.py], run on a CSV file, a provider, a day and a
    database file. *)
Definition download_data (df_tickers : csv_frame) (yf_download : provider)
    (today : Z) (db : database) : result unit * database * list message :=
  match load_tickers df_tickers with
  | Raised e => (Raised e, db, [])
  | Returned tickers_list =>
      let '(r, tbl, log) :=
        sync_all yf_download today tickers_list (create_table db) in
      (r, {| stock_data := Some tbl; tickers := tickers db |}, log)
  end.

(* ---------------------------------------------------------------------- *)
(** *** [remove_abondoned_data.py]                                         *)
(* ---------------------------------------------------------------------- *)

Definition cutoff_days : Z := 180.

(** One more row folded into the groups of
    [SELECT ticker, MAX(date) AS last_date FROM stock_data GROUP BY ticker]. *)
Fixpoint update_group (k d : option string)
    (groups : list (option string * option string))
  : list (option string * option string) :=
  match groups with
  | [] => [(k, max_text None d)]
  | (k', m) :: groups' =>
      if cell_eqb k k' then (k', max_text m d) :: groups'
      else (k', m) :: update_group k d groups'
  end.

Definition select_last_dates (tbl : table) : list (option string * option string) :=
  fold_left (fun groups r => update_group (ticker r) (date r) groups) tbl [].

(** [pd.to_datetime(df['last_date']).dt.date]: NULL becomes NaT. *)
Fixpoint to_dates (df : list (option string * option string))
  : result (list (option string * option Z)) :=
  match df with
  | [] => Returned []
  | (t, None) :: df' => ds <- to_dates df' ;; Returned ((t, None) :: ds)
  | (t, Some s) :: df' =>
      match to_datetime s with
      | Some d => ds <- to_dates df' ;; Returned ((t, Some d) :: ds)
      | None => Raised (ValueError "to_datetime")
      end
  end.

(** [(today - x).days > cutoff_days]; the comparison is false on NaT. *)
Definition is_abandoned (today : Z) (g : option string * option Z) : bool :=
  match snd g with
  | Some last_date => today - last_date >? cutoff_days
  | None => false
  end.

(** [SELECT name FROM sqlite_master WHERE type='table'], for the two
    tables this repository names. *)
Definition table_names (db : database) : list string :=
  ((match stock_data db with Some _ => ["stock_data"] | None => [] end)
   ++ (match tickers db with Some _ => ["tickers"] | None => [] end))%list.

(** The names bound at module level in [remove_abondoned_data.py] when
    line 29 runs: what it imports (lines 1 to 3) and what it assigns. *)
Definition module_names : list string :=
  ["pd"; "create_engine"; "datetime";
   "engine"; "today"; "cutoff_days"; "sql"; "df"; "abandoned"; "tables";
   "conn"; "ticker"].

Definition lookup_name (names : list string) (name : string) : result unit :=
  if existsb (String.eqb name) names then Returned tt else Raised (NameError name).

(** DELETE FROM tickers WHERE symbol = :ticker *)
Definition delete_symbol (t : option string) (tk : list TickersRow)
  : list TickersRow :=
  filter (fun r => match symbol r, t with
                   | Some s, Some t' => negb (String.eqb s t')
                   | _, _ => true
                   end) tk.

(** Lines 28 to 30, run in one transaction on the table [tickers]. The
    third component is what has been printed. *)
Fixpoint delete_loop (names : list string) (abandoned : list (option string))
    (conn : list TickersRow) : result unit * list TickersRow * list message :=
  match abandoned with
  | [] => (Returned tt, conn, [])
  | t :: abandoned' =>
      match lookup_name names "conn", lookup_name names "text" with
      | Returned _, Returned _ =>
          let '(r, conn', out) :=
            delete_loop names abandoned' (delete_symbol t conn) in
          (r, conn', Deleted t :: out)
      | Raised e, _ | _, Raised e => (Raised e, conn, [])
      end
  end.

(** The script, for a given set of module-level names. *)
Definition sweep (names : list string) (today : Z) (db : database)
  : result unit * database * list message :=
  match stock_data db with
  | None => (Raised (OperationalError "no such table: stock_data"), db, [])
  | Some tbl =>
      match to_dates (select_last_dates tbl) with
      | Raised e => (Raised e, db, [])
      | Returned df =>
          let abandoned := filter (is_abandoned today) df in
          let out := [AbandonedStocks abandoned] in
          let tables := table_names db in
          match existsb (String.eqb "tickers") tables, tickers db with
          | true, Some tk =>
              let '(r, tk', out') := delete_loop names (map fst abandoned) tk in
              match r with
              | Returned _ =>
                  (r, {| stock_data := stock_data db; tickers := Some tk' |},
                   (out ++ out')%list)
              | Raised _ => (r, db, (out ++ out')%list)
              end
          | _, _ => (Returned tt, db, (out ++ [NoTickersTable])%list)
          end
      end
  end.

Definition remove_abondoned_data : Z -> database
    -> result unit * database * list message :=
  sweep module_names.

(* ---------------------------------------------------------------------- *)
(** *** Vocabulary for the properties                                      *)
(* ---------------------------------------------------------------------- *)

(** The rows of a symbol, and the rows of the symbols of a list. *)
Definition of_symbol (t : string) (r : StockRow) : bool :=
  match ticker r with
  | Some t' => String.eqb t' t
  | None => false
  end.

Definition listed (ts : list string) (r : StockRow) : bool :=
  existsb (fun t => of_symbol t r) ts.

(** The order of MAX on a text column: NULL below every text, texts
    byte by byte. *)
Definition text_le (a b : option string) : Prop :=
  match a, b with
  | None, _ => True
  | Some x, Some y => String.leb x y = true
  | Some _, None => False
  end.

(** The dates of the rows whose ticker is [k] (NULL for the rows without
    one), and the entry of [k] in the answer of the GROUP BY query. *)
Definition group_dates (k : option string) (tbl : table) : list (option string) :=
  map date (filter (fun r => cell_eqb (ticker r) k) tbl).

Definition find_group (k : option string)
    (groups : list (option string * option string)) : option (option string) :=
  match find (fun g => cell_eqb k (fst g)) groups with
  | Some g => Some (snd g)
  | None => None
  end.

(** Every key of the first table is a key of the second. *)
Definition keeps_keys (tbl tbl' : table) : Prop :=
  forall r, In r tbl -> exists r', In r' tbl' /\ key_pair r' = key_pair r.

End Embedding.

(* ====================================================================== *)
(** ** Concrete inputs                                                     *)
(* ====================================================================== *)

(** An instance of the open library behaviour: dates are read as
    YYYY-MM-DD only, float columns keep their dtype. The float renderings
    are not exercised by the inputs below. *)
Definition sample_libraries : Libraries :=
  {| float_str := fun _ => "0.0";
     real_text := fun _ => "0.0";
     keeps_dtype := fun _ => true;
     to_datetime := Calendar.fromisoformat;
     to_datetime_iso := fun _ _ e => e |}.

Definition bar (t d : string) (c : sqlval) : StockRow :=
  {| ticker := Some t; date := Some d; open := c; high := c; low := c;
     close := c; adj_close := Null; volume := Integer 100 |}.

(** 1.0, 2.5 and a quiet NaN *)
Definition f_1_0 : float64 := 4607182418800017408.
Definition f_2_5 : float64 := 4612811918334230528.
Definition f_nan : float64 := 9221120237041090560.

Definition bbb_table : table := [bar "BBB" "2023-01-01" (Real f_1_0)].

Definition no_provider : provider := fun _ _ _ => Raised (ValueError "offline").

(** Two daily bars as the provider returns them: indexed by day, without
    an adjusted close, one low missing. *)
Definition aaa_download : DataFrame :=
  {| index_name := Some "Date";
     columns := ["Open"; "High"; "Low"; "Close"; "Volume"];
     rows :=
       [(Timestamp 738894,
         series_of [("Open", NpFloat f_1_0); ("High", NpFloat f_2_5);
                    ("Low", NpFloat f_nan); ("Close", NpFloat f_1_0);
                    ("Volume", NpInt 1200)]);
        (Timestamp 738895,
         series_of [("Open", NpFloat f_1_0); ("High", NpFloat f_2_5);
                    ("Low", NpFloat f_1_0); ("Close", NpFloat f_2_5);
                    ("Volume", NpInt 800)])] |}.

Definition aaa_provider : provider := fun _ _ _ => Returned aaa_download.

(** The same bars after [reset_index] and the stamp of the symbol. *)
Definition aaa_batch : DataFrame :=
  {| index_name := None;
     columns := ["Date"; "Open"; "High"; "Low"; "Close"; "Volume"; "ticker"];
     rows :=
       [(PyInt 0,
         series_of [("Date", Timestamp 738894); ("Open", NpFloat f_1_0);
                    ("High", NpFloat f_2_5); ("Low", NpFloat f_nan);
                    ("Close", NpFloat f_1_0); ("Volume", NpInt 1200);
                    ("ticker", PyStr "AAA")]);
        (PyInt 1,
         series_of [("Date", Timestamp 738895); ("Open", NpFloat f_1_0);
                    ("High", NpFloat f_2_5); ("Low", NpFloat f_1_0);
                    ("Close", NpFloat f_2_5); ("Volume", NpInt 800);
                    ("ticker", PyStr "AAA")])] |}.

Definition aaa_rows : table :=
  [{| ticker := Some "AAA"; date := Some "2024-01-09";
      open := Real f_1_0; high := Real f_2_5; low := Null;
      close := Real f_1_0; adj_close := Null; volume := Integer 1200 |};
   {| ticker := Some "AAA"; date := Some "2024-01-10";
      open := Real f_1_0; high := Real f_2_5; low := Real f_1_0;
      close := Real f_2_5; adj_close := Null; volume := Integer 800 |}].

(** A batch whose second row carries a value sqlite3 cannot bind. *)
Definition broken_batch : DataFrame :=
  {| index_name := None;
     columns := ["Date"; "Close"; "ticker"];
     rows :=
       [(PyInt 0,
         series_of [("Date", Timestamp 738894); ("Close", PyFloat f_1_0);
                    ("ticker", PyStr "BBB")]);
        (PyInt 1,
         series_of [("Date", Timestamp 738895); ("Close", PyObject "Decimal('2.5')");
                    ("ticker", PyStr "BBB")])] |}.

(** A batch that was never stamped with a symbol. *)
Definition unstamped_batch : DataFrame :=
  {| index_name := None;
     columns := ["Date"; "Close"];
     rows := [(PyInt 0,
               series_of [("Date", Timestamp 738894); ("Close", PyFloat f_1_0)])] |}.

Definition no_rows : DataFrame :=
  {| index_name := Some "Date"; columns := ["Open"; "Close"]; rows := [] |}.

(** Three symbols last updated 10, 181 and 500 days before 2024-01-10,
    all three tracked in the table [tickers]. *)
Definition swept_database : database :=
  {| stock_data :=
       Some [bar "NEW" "2023-12-31" (Real f_1_0);
             bar "OLD" "2023-07-13" (Real f_1_0);
             bar "GONE" "2022-08-28" (Real f_2_5)];
     tickers :=
       Some [{| symbol := Some "NEW"; other_columns := [] |};
             {| symbol := Some "OLD"; other_columns := [] |};
             {| symbol := Some "GONE"; other_columns := [] |}] |}.

Definition ticker_file : csv_frame :=
  [("Ticker", [Some " aapl"; None; Some "msft "; Some "AAPL"])].

(** A provider that answers for AAA only. *)
Definition flaky_provider : provider :=
  fun t _ _ =>
    if String.eqb t "AAA" then Returned aaa_download
    else Raised (ValueError "offline").

(** A batch without a date column, and one whose only date is missing. *)
Definition dateless_batch : DataFrame :=
  {| index_name := None;
     columns := ["Close"; "ticker"];
     rows := [(PyInt 0,
               series_of [("Close", PyFloat f_1_0); ("ticker", PyStr "CCC")])] |}.

Definition nat_batch : DataFrame :=
  {| index_name := None;
     columns := ["Date"; "Close"; "ticker"];
     rows := [(PyInt 0,
               series_of [("Date", NaT); ("Close", PyFloat f_1_0);
                          ("ticker", PyStr "CCC")])] |}.

(* ====================================================================== *)
(** ** Properties                                                          *)
(* ====================================================================== *)

Section Properties.
Context `{Libraries}.

Lemma gtb_true n m : m < n -> (n >? m) = true.
Proof. intros. destruct (Z.gtb_spec n m); [reflexivity | lia]. Qed.

Lemma gtb_false n m : n <= m -> (n >? m) = false.
Proof. intros. destruct (Z.gtb_spec n m); [lia | reflexivity]. Qed.

Lemma truthy_get_latest_date t tbl :
  truthy (get_latest_date t tbl) = get_latest_date t tbl.
Proof.
  unfold get_latest_date.
  destruct (select_max_date t tbl) as [s|]; [|reflexivity].
  destruct s as [|c s]; reflexivity.
Qed.

Lemma get_latest_date_not_empty t tbl : get_latest_date t tbl <> Some "".
Proof.
  unfold get_latest_date.
  destruct (select_max_date t tbl) as [s|]; [|discriminate].
  destruct s as [|c s]; discriminate.
Qed.

(** C4. The abandonment test is strict: a symbol whose latest stored date
    lies exactly [abandon_days] before today is fetched from the next day
    on, and one whose latest stored date lies [abandon_days + 1] days or
    more before today is skipped as abandoned, the provider is not called
    and the table is left as it was. *)
Theorem abandonment_boundary
    (yf_download : provider) (today D : Z) (t s : string) (tbl : table) :
  get_latest_date t tbl = Some s ->
  to_datetime s = Some D ->
  (today - D = abandon_days ->
     plan today (get_latest_date t tbl) = Returned (FETCH (D + 1) today))
  /\ (today - D >= abandon_days + 1 ->
     plan today (get_latest_date t tbl) = Returned (SKIP_ABANDONED (today - D))
     /\ sync_ticker yf_download today t tbl
        = (Returned tt, tbl, [Processing t; Abandoned (today - D)])).
Proof.
  intros Hlatest Hdate.
  assert (Hplan : plan today (get_latest_date t tbl)
                    = if today - D >? abandon_days
                      then Returned (SKIP_ABANDONED (today - D))
                      else if D + 1 >? today then Returned SKIP_CURRENT
                           else Returned (FETCH (D + 1) today)).
  { unfold plan. rewrite truthy_get_latest_date, Hlatest, Hdate.
    reflexivity. }
  unfold abandon_days in *.
  split.
  - intros Heq. rewrite Hplan.
    rewrite (gtb_false (today - D) 180), (gtb_false (D + 1) today) by lia.
    reflexivity.
  - intros Hge.
    assert (Hgt : (today - D >? 180) = true) by (apply gtb_true; lia).
    split.
    + rewrite Hplan, Hgt. reflexivity.
    + unfold sync_ticker. rewrite Hplan, Hgt. reflexivity.
Qed.

Lemma select_max_date_no_rows t tbl :
  (forall r, In r tbl -> ticker r <> Some t) -> select_max_date t tbl = None.
Proof.
  intros Hnone. unfold select_max_date.
  replace (filter _ tbl) with (@nil StockRow); [reflexivity|].
  symmetry. induction tbl as [|r tbl IH]; [reflexivity|].
  simpl. destruct (ticker r) as [t'|] eqn:Ht.
  - destruct (String.eqb_spec t' t) as [->|_].
    + exfalso. apply (Hnone r); [left; reflexivity | assumption].
    + apply IH. intros r' Hin. apply Hnone. right. assumption.
  - apply IH. intros r' Hin. apply Hnone. right. assumption.
Qed.

Lemma plan_latest today s D :
  s <> "" -> to_datetime s = Some D ->
  plan today (Some s)
  = if today - D >? abandon_days then Returned (SKIP_ABANDONED (today - D))
    else if D + 1 >? today then Returned SKIP_CURRENT
         else Returned (FETCH (D + 1) today).
Proof.
  intros Hs HD. unfold plan.
  replace (truthy (Some s)) with (Some s)
    by (destruct s; [congruence | reflexivity]).
  rewrite HD. reflexivity.
Qed.

(** C3. A symbol without stored rows is fetched from
    [today - years * 365] to today. A symbol whose latest stored date D is
    not after today and not abandoned is planned from D + 1: it is fetched
    from D + 1 to today when D + 1 <= today, and when D + 1 > today the
    decision is SKIP_CURRENT, the provider is not called and the table is
    left as it was. *)
Theorem planned_fetch_range
    (yf_download : provider) (today : Z) (t : string) (tbl : table) :
  ((forall r, In r tbl -> ticker r <> Some t) ->
     plan today (get_latest_date t tbl)
     = Returned (FETCH (today - years * 365) today))
  /\ (forall s D,
        get_latest_date t tbl = Some s -> to_datetime s = Some D ->
        D <= today -> today - D <= abandon_days ->
        (D + 1 <= today ->
           plan today (get_latest_date t tbl) = Returned (FETCH (D + 1) today))
        /\ (D + 1 > today ->
           plan today (get_latest_date t tbl) = Returned SKIP_CURRENT
           /\ sync_ticker yf_download today t tbl
              = (Returned tt, tbl, [Processing t; AlreadyUpToDate]))).
Proof.
  split.
  - intros Hnone. unfold get_latest_date.
    rewrite (select_max_date_no_rows t tbl Hnone). reflexivity.
  - intros s D Hlatest HD Hle Hfresh.
    assert (Hs : s <> "").
    { intros ->. exact (get_latest_date_not_empty t tbl Hlatest). }
    assert (Hplan := plan_latest today s D Hs HD).
    rewrite <- Hlatest in Hplan.
    rewrite (gtb_false (today - D) abandon_days) in Hplan by lia.
    split.
    + intros Hstart. rewrite Hplan, gtb_false by lia. reflexivity.
    + intros Hstart.
      assert (Hgt : (D + 1 >? today) = true) by (apply gtb_true; lia).
      split.
      * rewrite Hplan, Hgt. reflexivity.
      * unfold sync_ticker. rewrite Hplan, Hgt. reflexivity.
Qed.

(* ---------------------------------------------------------------------- *)
(** *** [upsert_to_db]: one transaction                                    *)
(* ---------------------------------------------------------------------- *)

Lemma insert_rows_all rs bound conn :
  Forall2 binds rs bound ->
  insert_rows rs conn = (Returned tt, apply_all bound conn).
Proof.
  intros Hall. revert conn.
  induction Hall as [|[i row] r rs bound Hr _ IH]; intros conn; [reflexivity|].
  simpl. unfold execute_insert. unfold binds in Hr. simpl in Hr.
  rewrite Hr. simpl. apply IH.
Qed.

Lemma insert_rows_some rs conn :
  Exists fails_to_bind rs ->
  exists e conn', insert_rows rs conn = (Raised e, conn').
Proof.
  intros Hex. revert conn.
  induction rs as [|[i row] rs IH]; intros conn.
  - inversion Hex.
  - simpl. unfold execute_insert.
    destruct (bind_row (params_of row)) as [r|e] eqn:Hr; simpl.
    + apply IH. inversion Hex as [? ? [e He]|]; subst; [|assumption].
      simpl in He. congruence.
    + eauto.
Qed.

Lemma bind_all_or_some rs :
  (exists bound, Forall2 binds rs bound) \/ Exists fails_to_bind rs.
Proof.
  induction rs as [|[i row] rs [[bound IH]|IH]].
  - left. exists []. constructor.
  - destruct (bind_row (params_of row)) as [r|e] eqn:Hr.
    + left. exists (r :: bound). constructor; assumption.
    + right. left. exists e. assumption.
  - right. right. assumption.
Qed.

Lemma upsert_all df tbl bound :
  empty df = false -> Forall2 binds (rows (normalize df)) bound ->
  upsert_to_db df tbl = (Returned PyNone, apply_all bound tbl).
Proof.
  intros Hne Hall. unfold upsert_to_db, engine_begin. rewrite Hne.
  rewrite (insert_rows_all _ _ tbl Hall). reflexivity.
Qed.

Lemma upsert_some df tbl :
  empty df = false -> Exists fails_to_bind (rows (normalize df)) ->
  exists e, upsert_to_db df tbl = (Raised e, tbl).
Proof.
  intros Hne Hex. unfold upsert_to_db, engine_begin. rewrite Hne.
  destruct (insert_rows_some _ tbl Hex) as (e & conn' & ->). eauto.
Qed.

(** C7. The rows of a batch are written in one transaction: when every
    row binds, all of them are written, in order; when the insert of any
    row raises, the call raises and the table is exactly what it was
    before the call, whatever rows had been written before the failing
    one. *)
Theorem upsert_atomic (df : DataFrame) (tbl : table) :
  empty df = false ->
  (forall bound, Forall2 binds (rows (normalize df)) bound ->
     upsert_to_db df tbl = (Returned PyNone, apply_all bound tbl))
  /\ (Exists fails_to_bind (rows (normalize df)) ->
     exists e, upsert_to_db df tbl = (Raised e, tbl))
  /\ ((exists bound, Forall2 binds (rows (normalize df)) bound)
      \/ Exists fails_to_bind (rows (normalize df))).
Proof.
  intros Hne. split; [|split].
  - intros bound. apply upsert_all. assumption.
  - apply upsert_some. assumption.
  - apply bind_all_or_some.
Qed.

Lemma length_rows_add_columns cols df :
  List.length (rows (add_columns cols df)) = List.length (rows df).
Proof.
  revert df. induction cols as [|c cols IH]; intros df; [reflexivity|].
  unfold add_columns. simpl. fold (add_columns cols).
  destruct (has_column df c); rewrite IH; [reflexivity|].
  simpl. apply length_map.
Qed.

Lemma length_rows_normalize df :
  List.length (rows (normalize df)) = List.length (rows df).
Proof.
  unfold normalize, where_notnull_None, prepared, column_astype_str, map_rows.
  cbn [rows select]. rewrite !length_map.
  unfold add_missing. rewrite length_rows_add_columns.
  unfold rename. cbn [rows]. apply length_map.
Qed.

(** C6, as the code has it. [upsert_to_db] has no return value: whenever
    it returns, it returns None. An empty batch is not written at all; a
    batch that binds is written row by row, one INSERT OR REPLACE for each
    of its rows. *)
Theorem upsert_returns_none (df : DataFrame) (tbl : table) :
  (forall v, fst (upsert_to_db df tbl) = Returned v -> v = PyNone)
  /\ (empty df = true -> upsert_to_db df tbl = (Returned PyNone, tbl))
  /\ (empty df = false ->
      forall bound, Forall2 binds (rows (normalize df)) bound ->
        List.length bound = List.length (rows df)
        /\ upsert_to_db df tbl = (Returned PyNone, apply_all bound tbl)).
Proof.
  split; [|split].
  - intros v. unfold upsert_to_db.
    destruct (empty df); cbn [fst]; [congruence|].
    destruct (engine_begin _ tbl) as [[u|e] tbl']; cbn [fst]; congruence.
  - intros He. unfold upsert_to_db. rewrite He. reflexivity.
  - intros Hne bound Hall. split; [|apply upsert_all; assumption].
    rewrite <- (Forall2_length Hall). apply length_rows_normalize.
Qed.

(* ---------------------------------------------------------------------- *)
(** *** [upsert_to_db]: what is written                                    *)
(* ---------------------------------------------------------------------- *)






Lemma has_column_set_column df col v c :
  has_column (set_column col v df) c = has_column df c || String.eqb c col.
Proof.
  unfold has_column at 1. simpl. fold (has_column df col).
  destruct (has_column df col) eqn:Hcol; fold (has_column df c).
  - destruct (String.eqb_spec c col) as [->|_];
      [rewrite Hcol; reflexivity | rewrite orb_false_r; reflexivity].
  - rewrite existsb_app. simpl. rewrite orb_false_r. reflexivity.
Qed.

(** Cells of a column that is there are not touched by [add_columns]. *)
Lemma add_columns_keeps cols df col :
  has_column df col = true ->
  has_column (add_columns cols df) col = true
  /\ forall ir, In ir (rows (add_columns cols df)) ->
       exists ir0, In ir0 (rows df) /\ fst ir = fst ir0 /\ snd ir col = snd ir0 col.
Proof.
  revert df. induction cols as [|c cols IH]; intros df Hcol.
  - split; [assumption|]. intros ir Hin. exists ir. auto.
  - unfold add_columns. simpl. fold (add_columns cols).
    destruct (has_column df c) eqn:Hc; [apply IH; assumption|].
    assert (Hne : String.eqb col c = false).
    { destruct (String.eqb_spec col c) as [->|_]; congruence. }
    destruct (IH (set_column c PyNA df)) as [Hhas Hrows].
    { rewrite has_column_set_column, Hcol. reflexivity. }
    split; [assumption|]. intros ir Hin.
    destruct (Hrows ir Hin) as (ir1 & Hin1 & Hfst & Hsnd).
    simpl in Hin1. apply in_map_iff in Hin1. destruct Hin1 as (ir0 & <- & Hin0).
    exists ir0. simpl in *. rewrite Hne in Hsnd. auto.
Qed.

(** Cells that hold pd.NA stay so. *)
Lemma add_columns_NA cols df col :
  (forall ir, In ir (rows df) -> snd ir col = PyNA) ->
  forall ir, In ir (rows (add_columns cols df)) -> snd ir col = PyNA.
Proof.
  revert df. induction cols as [|c cols IH]; intros df HNA; [assumption|].
  unfold add_columns. simpl. fold (add_columns cols).
  destruct (has_column df c); [apply IH; assumption|].
  apply IH. intros ir Hin. simpl in Hin. apply in_map_iff in Hin.
  destruct Hin as (ir0 & <- & Hin0). simpl.
  destruct (String.eqb col c); [reflexivity | apply HNA; assumption].
Qed.

(** A missing column is added and holds pd.NA. *)
Lemma add_columns_missing cols df col :
  In col cols -> has_column df col = false ->
  forall ir, In ir (rows (add_columns cols df)) -> snd ir col = PyNA.
Proof.
  revert df. induction cols as [|c cols IH]; intros df Hin Hcol; [destruct Hin|].
  unfold add_columns. simpl. fold (add_columns cols).
  destruct (String.eqb_spec col c) as [->|Hne].
  - rewrite Hcol. apply add_columns_NA. intros ir Hir. simpl in Hir.
    apply in_map_iff in Hir. destruct Hir as (ir0 & <- & _). simpl.
    rewrite String.eqb_refl. reflexivity.
  - destruct Hin as [->|Hin]; [congruence|].
    destruct (has_column df c); [apply IH; assumption|].
    apply IH; [assumption|]. rewrite has_column_set_column, Hcol.
    apply String.eqb_neq in Hne. rewrite Hne. reflexivity.
Qed.




Lemma bind_row_fields p r :
  bind_row p = Returned r ->
  bind_text (p "ticker") = Returned (ticker r)
  /\ bind_text (p "date") = Returned (date r)
  /\ forall col, In col numeric_cols -> bind_value (p col) = Returned (field r col).
Proof.
  unfold bind_row, bind. intros Hr.
  destruct (bind_text (p "ticker")) as [t|]; [|discriminate].
  destruct (bind_text (p "date")) as [d|]; [|discriminate].
  destruct (bind_value (p "open")) as [o|] eqn:Ho; [|discriminate].
  destruct (bind_value (p "high")) as [h|] eqn:Hh; [|discriminate].
  destruct (bind_value (p "low")) as [l|] eqn:Hl; [|discriminate].
  destruct (bind_value (p "close")) as [c|] eqn:Hc; [|discriminate].
  destruct (bind_value (p "adj_close")) as [a|] eqn:Ha; [|discriminate].
  destruct (bind_value (p "volume")) as [v|] eqn:Hv; [|discriminate].
  injection Hr as <-. simpl. repeat split.
  unfold numeric_cols. simpl.
  intros col [<-|[<-|[<-|[<-|[<-|[<-|[]]]]]]]; assumption.
Qed.

Lemma apply_all_In bound tbl r :
  In r (apply_all bound tbl) -> In r tbl \/ In r bound.
Proof.
  revert tbl. induction bound as [|b bound IH]; intros tbl; [auto|].
  unfold apply_all. simpl. fold (apply_all bound (insert_or_replace b tbl)).
  intros Hin. destruct (IH _ Hin) as [Hin'|Hin']; [|auto].
  unfold insert_or_replace in Hin'. apply in_app_or in Hin'.
  destruct Hin' as [Hin'|[<-|[]]]; [|auto].
  apply filter_In in Hin'. tauto.
Qed.

Lemma Forall2_In_right {A B} (R : A -> B -> Prop) l l' y :
  Forall2 R l l' -> In y l' -> exists x, In x l /\ R x y.
Proof.
  induction 1 as [|a b l l' Hab _ IH]; intros Hin; [destruct Hin|].
  destruct Hin as [<-|Hin].
  - exists a. split; [left; reflexivity | assumption].
  - destruct (IH Hin) as (x & Hx & HR). exists x. split; [right|]; assumption.
Qed.

(** Every row of the table after a call either was there before or was
    bound from a row of the batch. *)
Lemma upsert_rows_origin df tbl tbl' r :
  upsert_to_db df tbl = (Returned PyNone, tbl') -> In r tbl' ->
  In r tbl
  \/ exists ir, In ir (rows (prepared df))
       /\ bind_row (params_of (where_series (snd ir))) = Returned r.
Proof.
  intros Hup Hin. destruct (empty df) eqn:Hempty.
  - unfold upsert_to_db in Hup. rewrite Hempty in Hup.
    injection Hup as <-. auto.
  - destruct (bind_all_or_some (rows (normalize df))) as [[bound Hall]|Hex].
    + rewrite (upsert_all df tbl bound Hempty Hall) in Hup. injection Hup as <-.
      destruct (apply_all_In _ _ _ Hin) as [Hold|Hnew]; [auto|right].
      destruct (Forall2_In_right _ _ _ _ Hall Hnew) as (ir & Hir & Hbind).
      unfold normalize, where_notnull_None, map_rows in Hir.
      cbn [rows] in Hir.
      apply in_map_iff in Hir. destruct Hir as (ir0 & <- & Hir0).
      exists ir0. split; assumption.
    + destruct (upsert_some df tbl Hempty Hex) as [e He]. congruence.
Qed.


(* ---------------------------------------------------------------------- *)
(** *** INSERT OR REPLACE and the primary key                              *)
(* ---------------------------------------------------------------------- *)

Lemma same_key_eq k1 k2 : same_key k1 k2 = true <-> k1 = k2.
Proof.
  destruct k1 as [t1 d1], k2 as [t2 d2]. unfold same_key. simpl.
  rewrite andb_true_iff, !String.eqb_eq. split.
  - intros [-> ->]. reflexivity.
  - intros [= -> ->]. auto.
Qed.

Lemma conflicts_iff new old :
  conflicts new old = true
  <-> primary_key new <> None /\ primary_key new = primary_key old.
Proof.
  unfold conflicts.
  destruct (primary_key new) as [k1|], (primary_key old) as [k2|];
    try (split; [discriminate | intros [? ?]; congruence]).
  rewrite same_key_eq. split.
  - intros ->. split; [discriminate | reflexivity].
  - intros [_ [= ->]]. reflexivity.
Qed.

Lemma primary_key_of_pair r1 r2 :
  key_pair r1 = key_pair r2 -> primary_key r1 = primary_key r2.
Proof. unfold key_pair, primary_key. intros [= -> ->]. reflexivity. Qed.

Lemma key_pair_of_primary r1 r2 :
  primary_key r1 <> None -> primary_key r1 = primary_key r2 ->
  key_pair r1 = key_pair r2.
Proof.
  unfold key_pair, primary_key.
  destruct (ticker r1), (date r1), (ticker r2), (date r2); congruence.
Qed.

Lemma conflicts_refl r : primary_key r <> None -> conflicts r r = true.
Proof. intros Hk. apply conflicts_iff. auto. Qed.

Lemma hits_cons r rs old : hits (r :: rs) old = conflicts r old || hits rs old.
Proof. reflexivity. Qed.

Lemma filter_filter {A} (f g : A -> bool) l :
  filter f (filter g l) = filter (fun x => g x && f x) l.
Proof.
  induction l as [|a l IH]; [reflexivity|]. simpl.
  destruct (g a); simpl; [destruct (f a)|]; rewrite IH; reflexivity.
Qed.

Lemma filter_none {A} (f : A -> bool) l :
  (forall x, In x l -> f x = false) -> filter f l = [].
Proof.
  induction l as [|a l IH]; intros Hall; [reflexivity|]. simpl.
  rewrite (Hall a) by (left; reflexivity). apply IH.
  intros x Hx. apply Hall. right. assumption.
Qed.

Lemma apply_all_cons r rs tbl :
  apply_all (r :: rs) tbl = apply_all rs (insert_or_replace r tbl).
Proof. reflexivity. Qed.

Lemma apply_all_closed rs tbl :
  apply_all rs tbl
  = (filter (fun old => negb (hits rs old)) tbl ++ last_writes rs)%list.
Proof.
  revert tbl. induction rs as [|r rs IH]; intros tbl.
  - simpl. rewrite app_nil_r. induction tbl as [|a tbl IHt]; [reflexivity|].
    simpl. congruence.
  - rewrite apply_all_cons, IH. unfold insert_or_replace.
    rewrite filter_app, filter_filter, <- app_assoc. f_equal.
    + apply filter_ext. intros old. rewrite hits_cons, negb_orb. reflexivity.
    + simpl. destruct (hits rs r); reflexivity.
Qed.

Lemma last_writes_incl rs r : In r (last_writes rs) -> In r rs.
Proof.
  induction rs as [|a rs IH]; [auto|]. simpl.
  destruct (hits rs a); simpl; intuition.
Qed.

Lemma hits_member rs r : In r rs -> primary_key r <> None -> hits rs r = true.
Proof.
  intros Hin Hk. apply existsb_exists. exists r. auto using conflicts_refl.
Qed.

(** Writing a batch of rows with proper keys a second time changes
    nothing, not even the order of the rows. *)
Lemma apply_all_idempotent rs tbl :
  Forall (fun r => primary_key r <> None) rs ->
  apply_all rs (apply_all rs tbl) = apply_all rs tbl.
Proof.
  intros Hkeys. rewrite !apply_all_closed, filter_app, filter_filter.
  rewrite (filter_none _ (last_writes rs)), app_nil_r.
  - f_equal. apply filter_ext. intros old. apply andb_diag.
  - intros r Hr. apply last_writes_incl in Hr.
    rewrite hits_member; [reflexivity | assumption |].
    rewrite Forall_forall in Hkeys. auto.
Qed.

Lemma new_label_ticker c :
  new_label column_names c = "ticker" -> c = "ticker".
Proof.
  unfold new_label, column_names. cbn [find fst snd].
  repeat match goal with
         | |- context [String.eqb ?a c] => destruct (String.eqb a c)
         end; cbn [snd]; intros Hc; try discriminate Hc; assumption.
Qed.

Lemma has_column_In df col : has_column df col = true <-> In col (columns df).
Proof.
  unfold has_column. rewrite existsb_exists. split.
  - intros (c & Hin & Heq). apply String.eqb_eq in Heq. congruence.
  - intros Hin. exists col. split; [assumption | apply String.eqb_refl].
Qed.

Lemma find_some_first {A} (f : A -> bool) l x :
  In x l -> f x = true -> exists y, find f l = Some y /\ f y = true.
Proof.
  induction l as [|a l IH]; intros Hin Hx; [destruct Hin|]. simpl.
  destruct (f a) eqn:Ha; [eauto|].
  destruct Hin as [->|Hin]; [congruence | auto].
Qed.

Lemma bind_text_str row col s :
  row col = PyStr s ->
  bind_text (params_of (where_series row) col) = Returned (Some s).
Proof.
  intros Hcell. unfold params_of, where_series. rewrite Hcell. reflexivity.
Qed.

(** Every row of a stamped batch is bound with the stamp as its ticker and
    a text as its date. *)
Lemma stamped_key t df ir r :
  In ir (rows (normalize (set_column "ticker" (PyStr t) df))) -> binds ir r ->
  ticker r = Some t /\ exists d, date r = Some d.
Proof.
  set (df' := set_column "ticker" (PyStr t) df).
  intros Hin Hb. unfold normalize, where_notnull_None, map_rows in Hin.
  cbn [rows] in Hin. apply in_map_iff in Hin. destruct Hin as (ir1 & <- & Hin1).
  unfold binds in Hb. cbn [snd] in Hb.
  destruct (bind_row_fields _ _ Hb) as (Ht & Hd & _). clear Hb.
  unfold prepared, column_astype_str, map_rows in Hin1. cbn [rows select] in Hin1.
  apply in_map_iff in Hin1. destruct Hin1 as (ir2 & <- & Hin2).
  cbn [snd] in Ht, Hd. split.
  - assert (Hcell : snd ir2 "ticker" = PyStr t).
    { assert (Hhas : has_column (rename column_names df') "ticker" = true).
      { apply has_column_In. unfold rename. cbn [columns].
        apply in_map_iff. exists "ticker". split; [reflexivity|].
        apply has_column_In. unfold df'. rewrite has_column_set_column.
        apply orb_true_r. }
      destruct (add_columns_keeps expected_cols _ _ Hhas) as [_ Hrows].
      destruct (Hrows ir2 Hin2) as (ir3 & Hin3 & _ & ->).
      unfold rename in Hin3. cbn [rows] in Hin3. apply in_map_iff in Hin3.
      destruct Hin3 as (ir4 & <- & Hin4). cbn [snd].
      destruct (find_some_first
                  (fun c => String.eqb (new_label column_names c) "ticker")
                  (columns df') "ticker") as (c & -> & Hc).
      { apply has_column_In. unfold df'. rewrite has_column_set_column.
        apply orb_true_r. }
      { reflexivity. }
      apply String.eqb_eq, new_label_ticker in Hc. subst c.
      unfold df', set_column in Hin4. cbn [rows] in Hin4.
      apply in_map_iff in Hin4. destruct Hin4 as (ir5 & <- & _). reflexivity. }
    rewrite (bind_text_str _ "ticker" t) in Ht by exact Hcell. congruence.
  - erewrite bind_text_str in Hd by reflexivity. injection Hd as <-. eauto.
Qed.

Lemma stamped_keys t df bound :
  Forall2 binds (rows (normalize (set_column "ticker" (PyStr t) df))) bound ->
  Forall (fun r => primary_key r <> None) bound.
Proof.
  intros Hall. apply Forall_forall. intros r Hr.
  destruct (Forall2_In_right _ _ _ _ Hall Hr) as (ir & Hir & Hb).
  destruct (stamped_key t df ir r Hir Hb) as (Ht & d & Hd).
  unfold primary_key. rewrite Ht, Hd. discriminate.
Qed.

(** What a call of [reconcile] can leave behind. *)
Lemma reconcile_cases t df tbl :
  (exists r, reconcile t df tbl = (r, tbl)
             /\ forall tbl', reconcile t df tbl' = (r, tbl'))
  \/ exists bound,
       Forall (fun r => primary_key r <> None) bound
       /\ forall tbl', reconcile t df tbl' = (Returned PyNone, apply_all bound tbl').
Proof.
  unfold reconcile. set (df' := set_column "ticker" (PyStr t) df).
  destruct (empty df') eqn:Hempty.
  - left. exists (Returned PyNone). unfold upsert_to_db. rewrite Hempty. auto.
  - destruct (bind_all_or_some (rows (normalize df'))) as [[bound Hall]|Hex].
    + right. exists bound. split; [exact (stamped_keys t df bound Hall)|].
      intros tbl'. apply upsert_all; assumption.
    + left. destruct (upsert_some df' tbl Hempty Hex) as [e He].
      exists (Raised e). split; [assumption|]. intros tbl'.
      unfold upsert_to_db, engine_begin in *. rewrite Hempty in *.
      destruct (insert_rows_some _ tbl' Hex) as (e' & conn' & Hrows').
      destruct (insert_rows_some _ tbl Hex) as (e0 & conn0 & Hrows0).
      rewrite Hrows'. rewrite Hrows0 in He.
      assert (e' = e0); [|congruence].
      clear - Hrows' Hrows0. revert tbl tbl' conn0 conn' Hrows0 Hrows'.
      induction (rows (normalize df')) as [|[i row] rs IH];
        intros tbl tbl' conn0 conn'; simpl; [discriminate|].
      unfold execute_insert.
      destruct (bind_row (params_of row)); simpl; [apply IH | congruence].
Qed.

(** C1. Reconciling the same batch for the same symbol a second time
    leaves the table exactly as the first time left it: the same rows
    with the same values, in the same order. It also returns the same. *)
Theorem reconcile_idempotent (t : string) (raw_bars : DataFrame) (tbl : table) :
  reconcile t raw_bars (snd (reconcile t raw_bars tbl)) = reconcile t raw_bars tbl.
Proof.
  destruct (reconcile_cases t raw_bars tbl) as [(r & Hr & Hall)|(bound & Hk & Hall)].
  - rewrite Hr. apply Hall.
  - rewrite !Hall. cbn [snd]. rewrite apply_all_idempotent by assumption.
    reflexivity.
Qed.

Lemma NoDup_map_filter {A B} (g : A -> B) (f : A -> bool) l :
  NoDup (map g l) -> NoDup (map g (filter f l)).
Proof.
  induction l as [|a l IH]; intros Hnd; [constructor|].
  simpl in *. inversion Hnd as [|? ? Hnotin Hnd']; subst.
  destruct (f a); [|auto]. simpl. constructor; [|auto].
  intros Hin. apply Hnotin. apply in_map_iff in Hin.
  destruct Hin as (x & Hx & Hin). apply filter_In in Hin.
  apply in_map_iff. exists x. tauto.
Qed.

Lemma NoDup_map_injective {A B} (g : A -> B) l x y :
  NoDup (map g l) -> In x l -> In y l -> g x = g y -> x = y.
Proof.
  induction l as [|a l IH]; intros Hnd Hx Hy Heq; [destruct Hx|].
  simpl in Hnd. inversion Hnd as [|? ? Hnotin Hnd']; subst.
  destruct Hx as [->|Hx], Hy as [->|Hy]; auto.
  - exfalso. apply Hnotin. rewrite Heq. apply in_map. assumption.
  - exfalso. apply Hnotin. rewrite <- Heq. apply in_map. assumption.
Qed.

Lemma conflicts_key_pair new old :
  conflicts new old = true -> key_pair new = key_pair old.
Proof.
  intros Hc. apply conflicts_iff in Hc. destruct Hc as [Hk Heq].
  apply key_pair_of_primary; assumption.
Qed.

Lemma insert_or_replace_unique new tbl :
  primary_key new <> None -> unique_keys tbl ->
  unique_keys (insert_or_replace new tbl).
Proof.
  unfold unique_keys, insert_or_replace. intros Hk Hnd. rewrite map_app.
  apply NoDup_app.
  - apply NoDup_map_filter. assumption.
  - simpl. constructor; [intros [] | constructor].
  - intros k Hin [<-|[]]. apply in_map_iff in Hin.
    destruct Hin as (old & Hold & Hin). apply filter_In in Hin.
    destruct Hin as [_ Hno]. apply negb_true_iff in Hno.
    assert (conflicts new old = true); [|congruence].
    apply conflicts_iff. split; [assumption|].
    apply primary_key_of_pair. congruence.
Qed.

Lemma filter_conflicts_absent new tbl :
  ~ In (key_pair new) (map key_pair tbl) ->
  filter (fun old => negb (conflicts new old)) tbl = tbl.
Proof.
  induction tbl as [|a tbl IH]; intros Hnotin; [reflexivity|]. simpl in *.
  destruct (conflicts new a) eqn:Hc.
  - exfalso. apply Hnotin. left. symmetry. apply conflicts_key_pair. assumption.
  - simpl. f_equal. apply IH. tauto.
Qed.

Lemma filter_conflicts_present new tbl :
  primary_key new <> None -> unique_keys tbl ->
  In (key_pair new) (map key_pair tbl) ->
  S (List.length (filter (fun old => negb (conflicts new old)) tbl))
  = List.length tbl.
Proof.
  unfold unique_keys. intros Hk.
  induction tbl as [|a tbl IH]; intros Hnd Hin; [destruct Hin|].
  simpl in *. inversion Hnd as [|? ? Hnotin Hnd']; subst.
  destruct (conflicts new a) eqn:Hc; simpl.
  - rewrite filter_conflicts_absent; [reflexivity|].
    rewrite (conflicts_key_pair _ _ Hc). assumption.
  - f_equal. apply IH; [assumption|]. destruct Hin as [Heq|Hin]; [|assumption].
    assert (conflicts new a = true); [|congruence].
    apply conflicts_iff. split; [assumption|].
    apply primary_key_of_pair. congruence.
Qed.

Lemma apply_all_unique rs tbl :
  Forall (fun r => primary_key r <> None) rs -> unique_keys tbl ->
  unique_keys (apply_all rs tbl).
Proof.
  intros Hk. revert tbl. induction Hk as [|r rs Hr _ IH]; intros tbl Hu;
    [assumption|].
  rewrite apply_all_cons. apply IH. apply insert_or_replace_unique; assumption.
Qed.

Lemma reconcile_unique t df tbl :
  unique_keys tbl -> unique_keys (snd (reconcile t df tbl)).
Proof.
  intros Hu.
  destruct (reconcile_cases t df tbl) as [(r & -> & _)|(bound & Hk & ->)];
    cbn [snd]; [assumption | apply apply_all_unique; assumption].
Qed.

(** The table after one turn of the loop is the old one, or the old one
    with a batch fetched for the symbol reconciled into it. *)
Lemma sync_ticker_table yf_download today t tbl :
  snd (fst (sync_ticker yf_download today t tbl)) = tbl
  \/ exists df,
       snd (fst (sync_ticker yf_download today t tbl)) = snd (reconcile t df tbl).
Proof.
  unfold sync_ticker.
  destruct (plan today (get_latest_date t tbl)) as [[d| |a b]|e]; auto.
  destruct (yf_download t a (today + 1)) as [df0|e]; auto.
  destruct (empty df0); auto.
  destruct (reset_index df0) as [df|e]; auto.
  right. exists df. destruct (reconcile t df tbl) as [[v|e] tbl']; reflexivity.
Qed.

(** The provider is asked for the planned range, its end made exclusive:
    the turn depends on no other answer of the provider. *)
Lemma sync_ticker_calls_provider yf1 yf2 today t tbl a b :
  plan today (get_latest_date t tbl) = Returned (FETCH a b) ->
  yf1 t a (today + 1) = yf2 t a (today + 1) ->
  sync_ticker yf1 today t tbl = sync_ticker yf2 today t tbl.
Proof.
  intros Hplan Hsame. unfold sync_ticker. rewrite Hplan, Hsame. reflexivity.
Qed.

Lemma length_renumber name k rs :
  List.length (renumber name k rs) = List.length rs.
Proof.
  revert k. induction rs as [|[i r] rs IH]; intros k; [reflexivity|].
  simpl. rewrite IH. reflexivity.
Qed.

(** After a fetch that is written, the turn prints the number of rows of
    the fetched frame. *)
Lemma sync_ticker_reports yf_download today t tbl a b df0 df :
  plan today (get_latest_date t tbl) = Returned (FETCH a b) ->
  yf_download t a (today + 1) = Returned df0 -> empty df0 = false ->
  reset_index df0 = Returned df ->
  fst (reconcile t df tbl) = Returned PyNone ->
  sync_ticker yf_download today t tbl
  = (Returned tt, snd (reconcile t df tbl),
     [Processing t; Fetching a b; AddedUpdated (List.length (rows df0)) t]).
Proof.
  intros Hplan Hdl Hne Hreset Hret.
  assert (Hlen : List.length (rows df) = List.length (rows df0)).
  { unfold reset_index in Hreset.
    destruct (has_column df0 _); [discriminate|].
    injection Hreset as <-. cbn [rows]. apply length_renumber. }
  unfold sync_ticker. rewrite Hplan, Hdl, Hne, Hreset, Hlen.
  destruct (reconcile t df tbl) as [[v|e] tbl']; [reflexivity | discriminate].
Qed.

Lemma sync_ticker_unique yf_download today t tbl :
  unique_keys tbl ->
  unique_keys (snd (fst (sync_ticker yf_download today t tbl))).
Proof.
  intros Hu.
  destruct (sync_ticker_table yf_download today t tbl) as [->|[df ->]];
    [assumption | apply reconcile_unique; assumption].
Qed.

Lemma sync_all_unique yf_download today tickers_list tbl :
  unique_keys tbl ->
  unique_keys (snd (fst (sync_all yf_download today tickers_list tbl))).
Proof.
  revert tbl. induction tickers_list as [|t ts IH]; intros tbl Hu; [assumption|].
  simpl. pose proof (sync_ticker_unique yf_download today t tbl Hu) as Hu'.
  destruct (sync_ticker yf_download today t tbl) as [[[u|e] tbl'] log];
    cbn [fst snd] in *; [|assumption].
  specialize (IH tbl' Hu').
  destruct (sync_all yf_download today ts tbl') as [[r tbl''] log'].
  assumption.
Qed.

(** The sweep leaves the table [stock_data] alone. *)
Lemma sweep_stock_data names today db :
  stock_data (snd (fst (sweep names today db))) = stock_data db.
Proof.
  unfold sweep. destruct (stock_data db) as [tbl|] eqn:Htbl; [|exact Htbl].
  destruct (to_dates (select_last_dates tbl)) as [df|e]; [|exact Htbl].
  destruct (existsb _ (table_names db)); [|exact Htbl].
  destruct (tickers db) as [tk|]; [|exact Htbl].
  destruct (delete_loop names _ tk) as [[[u|e] tk'] out];
    [reflexivity | exact Htbl].
Qed.

(** C2. No two rows of [stock_data] carry the same (ticker, date) pair.
    The empty table is so; writing a row with a proper key keeps it so,
    and the written row is then the only one with its pair, whole as it
    was written, in a table that has not grown if the pair was there;
    [reconcile], a whole run of [download_data.py] and a run of the sweep
    keep it so. *)
Theorem primary_key_unique :
  unique_keys []
  /\ (forall new tbl,
        primary_key new <> None -> unique_keys tbl ->
        unique_keys (insert_or_replace new tbl)
        /\ In new (insert_or_replace new tbl)
        /\ (forall r, In r (insert_or_replace new tbl) ->
              key_pair r = key_pair new -> r = new)
        /\ (In (key_pair new) (map key_pair tbl) ->
              List.length (insert_or_replace new tbl) = List.length tbl))
  /\ (forall t df tbl,
        unique_keys tbl -> unique_keys (snd (reconcile t df tbl)))
  /\ (forall df_tickers yf_download today db,
        unique_db db ->
        unique_db (snd (fst (download_data df_tickers yf_download today db))))
  /\ (forall names today db,
        unique_db db -> unique_db (snd (fst (sweep names today db)))).
Proof.
  split; [constructor|]. split; [|split; [|split]].
  - intros new tbl Hk Hu.
    pose proof (insert_or_replace_unique new tbl Hk Hu) as Hu'.
    assert (Hin : In new (insert_or_replace new tbl)).
    { unfold insert_or_replace. apply in_or_app. right. left. reflexivity. }
    repeat split; [assumption | assumption | |].
    + intros r Hr Heq. exact (NoDup_map_injective key_pair _ r new Hu' Hr Hin Heq).
    + intros Hpresent. unfold insert_or_replace. rewrite length_app. simpl.
      rewrite <- (filter_conflicts_present new tbl Hk Hu Hpresent). lia.
  - intros t df tbl. apply reconcile_unique.
  - intros df_tickers yf_download today db Hu. unfold download_data.
    destruct (load_tickers df_tickers) as [ts|e]; [|assumption].
    assert (Hc : unique_keys (create_table db)).
    { unfold create_table. destruct (stock_data db) as [tbl|] eqn:Htbl;
        [apply Hu; exact Htbl | constructor]. }
    pose proof (sync_all_unique yf_download today ts _ Hc) as Hu'.
    destruct (sync_all yf_download today ts (create_table db)) as [[r tbl] log].
    intros tbl' [= <-]. assumption.
  - intros names today db Hu tbl. rewrite sweep_stock_data. apply Hu.
Qed.

(** C9. Whatever the sweep does, and however it ends, the table
    [stock_data] is afterwards what it was before, row for row: the
    database changes in the table [tickers] at most. *)
Theorem sweep_frame (names : list string) (today : Z) (db : database) :
  stock_data (snd (fst (sweep names today db))) = stock_data db
  /\ stock_data (snd (fst (remove_abondoned_data today db))) = stock_data db.
Proof. split; apply sweep_stock_data. Qed.

(* ---------------------------------------------------------------------- *)
(** *** The sweep and the table [tickers]                                  *)
(* ---------------------------------------------------------------------- *)

(** What the sweep selects: the symbols whose latest date lies more than
    [cutoff_days] before today. *)
Lemma abandoned_selection today (df : list (option string * option Z)) t last :
  In (t, last) (filter (is_abandoned today) df)
  <-> In (t, last) df /\ exists d, last = Some d /\ today - d > cutoff_days.
Proof.
  rewrite filter_In. unfold is_abandoned. cbn [snd].
  destruct last as [d|].
  - destruct (Z.gtb_spec (today - d) cutoff_days) as [Hlt|Hge].
    + split; [intros [Hin _]; split; [assumption|]; exists d; split; [reflexivity | lia]
             | intros [Hin _]; auto].
    + split; [intros [_ Hf]; discriminate|].
      intros [_ (d' & [= <-] & Hgt)]. lia.
  - split; [intros [_ Hf]; discriminate | intros [_ (d' & Hd & _)]; discriminate].
Qed.

(** Without a table [tickers] nothing is removed, the skip is printed and
    the script ends without an exception. *)
Lemma sweep_without_tickers names today db tbl df :
  stock_data db = Some tbl -> tickers db = None ->
  to_dates (select_last_dates tbl) = Returned df ->
  sweep names today db
  = (Returned tt, db, [AbandonedStocks (filter (is_abandoned today) df); NoTickersTable]).
Proof.
  intros Htbl Htk Hdf. unfold sweep, table_names.
  rewrite Htbl, Hdf, Htk. reflexivity.
Qed.

Lemma delete_loop_unbound names abandoned conn :
  existsb (String.eqb "text") names = false -> abandoned <> [] ->
  exists e, delete_loop names abandoned conn = (Raised e, conn, [])
            /\ (existsb (String.eqb "conn") names = true -> e = NameError "text").
Proof.
  intros Htext Hne. destruct abandoned as [|t abandoned]; [congruence|].
  cbn [delete_loop]. unfold lookup_name. rewrite Htext.
  destruct (existsb (String.eqb "conn") names); eexists;
    (split; [reflexivity | intros Hb; (reflexivity || discriminate Hb)]).
Qed.

Lemma delete_symbol_gone t tk r :
  In r (delete_symbol (Some t) tk) -> symbol r <> Some t.
Proof.
  unfold delete_symbol. intros Hin Hs. apply filter_In in Hin.
  destruct Hin as [_ Hkeep]. rewrite Hs in Hkeep.
  rewrite String.eqb_refl in Hkeep. discriminate.
Qed.

Lemma delete_symbol_incl t tk r : In r (delete_symbol t tk) -> In r tk.
Proof. unfold delete_symbol. intros Hin. apply filter_In in Hin. tauto. Qed.

(** With [text] bound, the loop deletes every selected symbol. *)
Lemma delete_loop_bound names abandoned conn :
  existsb (String.eqb "text") names = true ->
  existsb (String.eqb "conn") names = true ->
  exists conn',
    delete_loop names abandoned conn = (Returned tt, conn', map Deleted abandoned)
    /\ (forall r, In r conn' -> In r conn)
    /\ (forall t r, In (Some t) abandoned -> In r conn' -> symbol r <> Some t).
Proof.
  intros Htext Hconn. revert conn.
  induction abandoned as [|a abandoned IH]; intros conn.
  - exists conn. simpl. split; [reflexivity|]. split; [auto|]. intros t r [].
  - simpl. unfold lookup_name. rewrite Htext, Hconn.
    destruct (IH (delete_symbol a conn)) as (conn' & -> & Hincl & Hgone).
    exists conn'. split; [reflexivity|]. split.
    + intros r Hr. eapply delete_symbol_incl. apply Hincl. assumption.
    + intros t r [->|Hin] Hr; [|eapply Hgone; eassumption].
      eapply delete_symbol_gone. apply Hincl. assumption.
Qed.

(** C5, where the code departs from it. The script uses [text] on line 29
    and never imports it. So with a table [tickers] and at least one
    symbol selected, the first delete raises NameError, the transaction is
    rolled back and the database is left as it was: no symbol is
    removed. *)
Theorem sweep_delete_raises
    (today : Z) (db : database) (tbl : table) (tk : list TickersRow)
    (df : list (option string * option Z)) :
  stock_data db = Some tbl -> tickers db = Some tk ->
  to_dates (select_last_dates tbl) = Returned df ->
  filter (is_abandoned today) df <> [] ->
  remove_abondoned_data today db
  = (Raised (NameError "text"), db,
     [AbandonedStocks (filter (is_abandoned today) df)]).
Proof.
  intros Htbl Htk Hdf Hne. unfold remove_abondoned_data, sweep, table_names.
  rewrite Htbl, Hdf, Htk. cbn [existsb app String.eqb Ascii.eqb Bool.eqb orb].
  destruct (delete_loop_unbound module_names
              (map fst (filter (is_abandoned today) df)) tk) as (e & -> & He).
  - reflexivity.
  - destruct (filter (is_abandoned today) df); [congruence | discriminate].
  - rewrite He by reflexivity. reflexivity.
Qed.

(* ---------------------------------------------------------------------- *)
(** *** The ticker list                                                    *)
(* ---------------------------------------------------------------------- *)

Lemma cell_eqb_eq a b : cell_eqb a b = true <-> a = b.
Proof.
  destruct a as [x|], b as [y|]; simpl; try (split; congruence).
  rewrite String.eqb_eq. split; congruence.
Qed.

Lemma In_unique_from x seen col :
  In x col -> existsb (cell_eqb x) seen = false -> In x (unique_from seen col).
Proof.
  revert seen. induction col as [|c col IH]; intros seen Hin Hseen; [destruct Hin|].
  simpl. destruct (existsb (cell_eqb c) seen) eqn:Hc.
  - destruct Hin as [->|Hin]; [congruence | auto].
  - destruct Hin as [->|Hin]; [left; reflexivity|].
    destruct (cell_eqb x c) eqn:Hxc.
    + apply cell_eqb_eq in Hxc. subst. left. reflexivity.
    + right. apply IH; [assumption|]. simpl. rewrite Hxc, Hseen. reflexivity.
Qed.

Lemma In_tolist s col : In (Some s) col -> In s (tolist col).
Proof.
  induction col as [|[c|] col IH]; simpl; [tauto | |].
  - intros [[= ->]|Hin]; auto.
  - intros [Hf|Hin]; [discriminate | auto].
Qed.

Lemma dropna_all_some (f : string -> string) col :
  dropna (str_accessor f col) = str_accessor f col
  <-> ~ In None col.
Proof.
  induction col as [|[c|] col IH]; simpl.
  - tauto.
  - split.
    + intros [= Heq]. intros [Hf|Hin]; [discriminate | tauto].
    + intros Hnot. f_equal. apply IH. tauto.
  - split; [|tauto]. intros Heq. exfalso.
    assert (Hlen : (List.length (dropna (str_accessor f col))
                    <= List.length (str_accessor f col))%nat).
    { clear. induction (str_accessor f col) as [|[c|] l IHl]; simpl; lia. }
    rewrite Heq in Hlen. simpl in Hlen. lia.
Qed.

Lemma astype_str_no_missing col : ~ In None (series_astype_str col).
Proof.
  induction col as [|[c|] col IH]; simpl; [tauto | |];
    intros [Hf|Hin]; (discriminate || tauto).
Qed.

Lemma str_accessor_no_missing f col :
  ~ In None col -> ~ In None (str_accessor f col).
Proof.
  induction col as [|[c|] col IH]; simpl; [tauto | |]; intros Hnot.
  - intros [Hf|Hin]; [discriminate|]. apply IH; tauto.
  - tauto.
Qed.

(** The loader runs the same pipeline on the column "Ticker" or, when
    there is none, on the column "symbol". *)
Lemma load_tickers_reads df_tickers ts :
  load_tickers df_tickers = Returned ts ->
  exists col,
    ts = ticker_pipeline col
    /\ (csv_column df_tickers "Ticker" = Returned col
        \/ csv_column df_tickers "symbol" = Returned col).
Proof.
  unfold load_tickers.
  destruct (csv_column df_tickers "Ticker") as [col|e].
  - intros [= <-]. exists col. auto.
  - destruct (csv_column df_tickers "symbol") as [col|e']; [|discriminate].
    intros [= <-]. exists col. auto.
Qed.

(** C10. In the ticker list, [dropna] comes after [astype(str)], which
    has already turned every missing cell into the text "nan": it removes
    nothing, the cleaned column is as long as the column read, and a
    column with a missing cell yields the ticker "NAN". *)
Theorem missing_ticker_kept (col : list (option string)) :
  let cleaned :=
    str_accessor upper (str_accessor strip (series_astype_str col)) in
  dropna cleaned = cleaned
  /\ List.length (dropna cleaned) = List.length col
  /\ ticker_pipeline col = tolist (unique cleaned)
  /\ (In None col -> In "NAN" (ticker_pipeline col)).
Proof.
  intros cleaned.
  assert (Hdrop : dropna cleaned = cleaned).
  { apply dropna_all_some. apply str_accessor_no_missing.
    apply astype_str_no_missing. }
  split; [assumption|]. split; [|split].
  - rewrite Hdrop. unfold cleaned, str_accessor, series_astype_str.
    rewrite !length_map. reflexivity.
  - unfold ticker_pipeline. fold cleaned. rewrite Hdrop. reflexivity.
  - intros Hmissing. unfold ticker_pipeline. fold cleaned. rewrite Hdrop.
    apply In_tolist. apply In_unique_from; [|reflexivity].
    unfold cleaned, str_accessor, series_astype_str. rewrite !map_map.
    apply in_map_iff. exists None. split; [reflexivity | assumption].
Qed.

(* ====================================================================== *)
(** ** Further properties of the two scripts                               *)
(* ====================================================================== *)

(* ---------------------------------------------------------------------- *)
(** *** The planner                                                        *)
(* ---------------------------------------------------------------------- *)

(** Every range the loop fetches ends today, starts no later than today
    and no earlier than [years * 365] days back. It starts that far back
    only for a symbol without a latest date; otherwise it starts on the
    day after the latest date, which then lies before today and at most
    [abandon_days] back. *)
Theorem plan_fetch_bounds (today : Z) (latest : option string) (a b : Z) :
  plan today latest = Returned (FETCH a b) ->
  b = today /\ today - years * 365 <= a <= today
  /\ ((truthy latest = None /\ a = today - years * 365)
      \/ exists s D, truthy latest = Some s /\ to_datetime s = Some D
                     /\ a = D + 1 /\ today - abandon_days <= D < today).
Proof.
  unfold plan, start_full, years, abandon_days.
  destruct (truthy latest) as [s|] eqn:Hlatest.
  - destruct (to_datetime s) as [D|] eqn:HD; [|discriminate].
    destruct (Z.gtb_spec (today - D) 180) as [Hold|Hfresh]; [discriminate|].
    destruct (Z.gtb_spec (D + 1) today) as [Hdone|Hnext]; [discriminate|].
    intros [= <- <-]. split; [reflexivity|]. split; [lia|].
    right. exists s, D. repeat split; try assumption; lia.
  - intros [= <- <-]. split; [reflexivity|]. split; [lia|]. left. auto.
Qed.

(* ---------------------------------------------------------------------- *)
(** *** What [upsert_to_db] writes in the date column                      *)
(* ---------------------------------------------------------------------- *)

(** The date column is turned into text (line 79) before the null-like
    values are replaced (lines 80 and 88), so a date is never stored as
    NULL: a row written by [upsert_to_db] holds the text of its date cell,
    the text "<NA>" when the frame has no date column. *)
Theorem date_is_stored_as_text
    (df : DataFrame) (tbl tbl' : table) (r : StockRow) :
  upsert_to_db df tbl = (Returned PyNone, tbl') -> In r tbl' ->
  In r tbl
  \/ exists ir, In ir (rows (add_missing (rename column_names df)))
       /\ date r = Some (astype_str (snd ir "date"))
       /\ (has_column (rename column_names df) "date" = false ->
           date r = Some "<NA>").
Proof.
  intros Hup Hin.
  destruct (upsert_rows_origin df tbl tbl' r Hup Hin) as [Hold|(ir & Hir & Hb)];
    [auto|right].
  unfold prepared, column_astype_str, map_rows in Hir. cbn [rows select] in Hir.
  apply in_map_iff in Hir. destruct Hir as (ir0 & <- & Hir0).
  cbn [snd] in Hb. destruct (bind_row_fields _ _ Hb) as (_ & Hd & _).
  erewrite bind_text_str in Hd by reflexivity. injection Hd as Hd.
  exists ir0. split; [assumption|]. split; [symmetry; exact Hd|].
  intros Hmiss. rewrite <- Hd.
  rewrite (add_columns_missing expected_cols (rename column_names df) "date");
    [reflexivity | simpl; tauto | assumption | assumption].
Qed.

(* ---------------------------------------------------------------------- *)
(** *** What [reconcile] leaves alone                                      *)
(* ---------------------------------------------------------------------- *)

(** What a call of [reconcile] leaves: the table as it was, or the table
    with rows of the symbol written into it, one for each row of the
    batch. *)
Lemma reconcile_written t df tbl :
  snd (reconcile t df tbl) = tbl
  \/ exists bound,
       Forall (fun r => ticker r = Some t /\ primary_key r <> None) bound
       /\ List.length bound = List.length (rows df)
       /\ snd (reconcile t df tbl) = apply_all bound tbl.
Proof.
  unfold reconcile. set (df' := set_column "ticker" (PyStr t) df).
  destruct (empty df') eqn:Hempty.
  - left. unfold upsert_to_db. rewrite Hempty. reflexivity.
  - destruct (bind_all_or_some (rows (normalize df'))) as [[bound Hall]|Hex].
    + right. exists bound. split; [|split].
      * apply Forall_forall. intros r Hr.
        destruct (Forall2_In_right _ _ _ _ Hall Hr) as (ir & Hir & Hb).
        destruct (stamped_key t df ir r Hir Hb) as (Ht & d & Hd).
        split; [assumption|]. unfold primary_key. rewrite Ht, Hd. discriminate.
      * rewrite <- (Forall2_length Hall), length_rows_normalize.
        unfold df', set_column. cbn [rows]. apply length_map.
      * rewrite (upsert_all df' tbl bound Hempty Hall). reflexivity.
    + left. destruct (upsert_some df' tbl Hempty Hex) as [e ->]. reflexivity.
Qed.

Lemma hits_exists rs old :
  hits rs old = true -> exists r, In r rs /\ conflicts r old = true.
Proof. unfold hits. rewrite existsb_exists. auto. Qed.

Lemma conflicts_same_ticker r old t :
  conflicts r old = true -> ticker r = Some t -> ticker old = Some t.
Proof.
  intros Hc Ht. apply conflicts_key_pair in Hc. unfold key_pair in Hc.
  congruence.
Qed.

Lemma of_symbol_true t r : of_symbol t r = true <-> ticker r = Some t.
Proof.
  unfold of_symbol. destruct (ticker r) as [t'|].
  - rewrite String.eqb_eq. split; congruence.
  - split; discriminate.
Qed.

(** Rows that are not of the symbol pass through a batch of the symbol. *)
Lemma apply_all_other_rows (p : StockRow -> bool) t bound tbl :
  Forall (fun r => ticker r = Some t /\ primary_key r <> None) bound ->
  (forall r, p r = true -> ticker r <> Some t) ->
  filter p (apply_all bound tbl) = filter p tbl.
Proof.
  intros Hbound Hp. rewrite Forall_forall in Hbound.
  rewrite apply_all_closed, filter_app, filter_filter.
  rewrite (filter_none p (last_writes bound)), app_nil_r.
  - apply filter_ext. intros old. destruct (p old) eqn:Hold;
      [|apply andb_false_r]. rewrite andb_true_r.
    destruct (hits bound old) eqn:Hhit; [|reflexivity].
    destruct (hits_exists _ _ Hhit) as (r & Hr & Hc).
    exfalso. apply (Hp old Hold).
    apply (conflicts_same_ticker r old t Hc). apply Hbound. assumption.
  - intros r Hr. apply last_writes_incl in Hr.
    destruct (p r) eqn:Hpr; [|reflexivity].
    exfalso. apply (Hp r Hpr). apply Hbound. assumption.
Qed.

Lemma reconcile_other_rows (p : StockRow -> bool) t df tbl :
  (forall r, p r = true -> ticker r <> Some t) ->
  filter p (snd (reconcile t df tbl)) = filter p tbl.
Proof.
  intros Hp.
  destruct (reconcile_written t df tbl) as [->|(bound & Hb & _ & ->)];
    [reflexivity|].
  apply (apply_all_other_rows p t); assumption.
Qed.

(** Reconciling a batch for one symbol touches no row of any other symbol
    and no row without a symbol: these rows are afterwards the same, in
    the same order, and the latest date of every other symbol is what it
    was. *)
Theorem reconcile_other_symbols (t : string) (df : DataFrame) (tbl : table) :
  filter (fun r => negb (of_symbol t r)) (snd (reconcile t df tbl))
  = filter (fun r => negb (of_symbol t r)) tbl
  /\ forall t', t' <> t ->
       filter (of_symbol t') (snd (reconcile t df tbl)) = filter (of_symbol t') tbl
       /\ get_latest_date t' (snd (reconcile t df tbl)) = get_latest_date t' tbl.
Proof.
  split.
  - apply reconcile_other_rows. intros r Hr Ht.
    apply of_symbol_true in Ht. rewrite Ht in Hr. discriminate.
  - intros t' Hne.
    assert (Hrows : filter (of_symbol t') (snd (reconcile t df tbl))
                    = filter (of_symbol t') tbl).
    { apply reconcile_other_rows. intros r Hr Ht.
      apply of_symbol_true in Hr. congruence. }
    split; [assumption|].
    unfold get_latest_date, select_max_date.
    change (fun r : StockRow => match ticker r with
                                | Some t'0 => String.eqb t'0 t'
                                | None => false
                                end) with (of_symbol t').
    rewrite Hrows. reflexivity.
Qed.

Lemma last_writes_covers rs :
  forall r, In r rs -> primary_key r <> None ->
  exists r', In r' (last_writes rs) /\ key_pair r' = key_pair r.
Proof.
  induction rs as [|a rs IH]; intros r Hin Hk; [destruct Hin|].
  simpl. destruct (hits rs a) eqn:Hhit.
  - destruct Hin as [->|Hin]; [|apply IH; assumption].
    destruct (hits_exists _ _ Hhit) as (r1 & Hr1 & Hc).
    apply conflicts_iff in Hc. destruct Hc as [Hk1 Heq].
    destruct (IH r1 Hr1 Hk1) as (r' & Hr' & Hkey).
    exists r'. split; [assumption|].
    rewrite Hkey. apply key_pair_of_primary; assumption.
  - destruct Hin as [->|Hin].
    + exists r. split; [left; reflexivity | reflexivity].
    + destruct (IH r Hin Hk) as (r' & Hr' & Hkey).
      exists r'. split; [right; assumption | assumption].
Qed.

Lemma apply_all_keeps_keys bound tbl :
  Forall (fun r => primary_key r <> None) bound ->
  keeps_keys tbl (apply_all bound tbl).
Proof.
  intros Hbound r Hr. rewrite Forall_forall in Hbound.
  rewrite apply_all_closed. destruct (hits bound r) eqn:Hhit.
  - destruct (hits_exists _ _ Hhit) as (r0 & Hr0 & Hc).
    destruct (last_writes_covers bound r0 Hr0 (Hbound r0 Hr0)) as (r' & Hr' & Hkey).
    exists r'. split; [apply in_or_app; right; assumption|].
    rewrite Hkey. apply conflicts_key_pair. assumption.
  - exists r. split; [|reflexivity]. apply in_or_app. left.
    apply filter_In. rewrite Hhit. auto.
Qed.

Lemma length_filter_le {A} (f : A -> bool) l :
  (List.length (filter f l) <= List.length l)%nat.
Proof. induction l as [|a l IH]; simpl; [lia|]. destruct (f a); simpl; lia. Qed.

Lemma length_filter_split {A} (f : A -> bool) l :
  (List.length (filter f l) + List.length (filter (fun x => negb (f x)) l)
   = List.length l)%nat.
Proof. induction l as [|a l IH]; simpl; [lia|]. destruct (f a); simpl; lia. Qed.

Lemma length_last_writes rs :
  (List.length (last_writes rs) <= List.length rs)%nat.
Proof.
  induction rs as [|a rs IH]; simpl; [lia|]. destruct (hits rs a); simpl; lia.
Qed.

(** In a table with unique keys, a batch replaces no more rows than it
    writes. *)
Lemma length_hit_rows bound tbl :
  unique_keys tbl ->
  (List.length (filter (hits bound) tbl) <= List.length (last_writes bound))%nat.
Proof.
  intros Hu.
  rewrite <- (length_map key_pair (filter (hits bound) tbl)).
  rewrite <- (length_map key_pair (last_writes bound)).
  apply NoDup_incl_length; [apply NoDup_map_filter; exact Hu|].
  intros k Hk. apply in_map_iff in Hk. destruct Hk as (old & <- & Hold).
  apply filter_In in Hold. destruct Hold as [_ Hhit].
  destruct (hits_exists _ _ Hhit) as (r0 & Hr0 & Hc).
  pose proof (conflicts_key_pair _ _ Hc) as Hkey.
  apply conflicts_iff in Hc. destruct Hc as [Hk0 _].
  destruct (last_writes_covers bound r0 Hr0 Hk0) as (r' & Hr' & Hkey').
  apply in_map_iff. exists r'. split; [congruence | assumption].
Qed.

(** Reconciling a batch never loses a stored key: every (ticker, date)
    pair of the table is still there afterwards, whether the call returns
    or raises. The table grows by at most the number of rows of the batch,
    and when its keys were unique it does not shrink. *)
Theorem reconcile_keeps_history (t : string) (df : DataFrame) (tbl : table) :
  keeps_keys tbl (snd (reconcile t df tbl))
  /\ (List.length (snd (reconcile t df tbl))
      <= List.length tbl + List.length (rows df))%nat
  /\ (unique_keys tbl ->
      (List.length tbl <= List.length (snd (reconcile t df tbl)))%nat).
Proof.
  destruct (reconcile_written t df tbl) as [->|(bound & Hb & Hlen & ->)].
  - split; [|split; [lia | auto]]. intros r Hr. exists r. auto.
  - assert (Hk : Forall (fun r => primary_key r <> None) bound).
    { eapply Forall_impl; [|exact Hb]. intros r [_ Hr]. exact Hr. }
    split; [apply apply_all_keeps_keys; assumption|].
    rewrite apply_all_closed, length_app. split.
    + pose proof (length_filter_le (fun old => negb (hits bound old)) tbl).
      pose proof (length_last_writes bound). lia.
    + intros Hu. pose proof (length_hit_rows bound tbl Hu).
      pose proof (length_filter_split (hits bound) tbl). lia.
Qed.

(* ---------------------------------------------------------------------- *)
(** *** The latest date of a symbol                                        *)
(* ---------------------------------------------------------------------- *)

Lemma ascii_compare_refl c : Ascii.compare c c = Eq.
Proof. unfold Ascii.compare. apply N.compare_refl. Qed.

Lemma string_compare_refl s : String.compare s s = Eq.
Proof.
  induction s as [|c s IH]; [reflexivity|]. simpl.
  rewrite ascii_compare_refl. assumption.
Qed.

Lemma leb_refl s : String.leb s s = true.
Proof. unfold String.leb. rewrite string_compare_refl. reflexivity. Qed.

Lemma leb_empty s : String.leb s "" = true -> s = "".
Proof. destruct s; [reflexivity | discriminate]. Qed.

Lemma leb_trans a b c :
  String.leb a b = true -> String.leb b c = true -> String.leb a c = true.
Proof.
  unfold String.leb. revert b c.
  induction a as [|x a IH]; intros [|y b] [|z c]; simpl; try congruence.
  unfold Ascii.compare.
  destruct (N.compare_spec (N_of_ascii x) (N_of_ascii y)) as [Hxy|Hxy|Hxy];
    destruct (N.compare_spec (N_of_ascii y) (N_of_ascii z)) as [Hyz|Hyz|Hyz];
    try congruence.
  - rewrite Hxy, Hyz, N.compare_refl. apply IH.
  - rewrite Hxy. intros _ _.
    destruct (N.compare_spec (N_of_ascii y) (N_of_ascii z)); (reflexivity || lia).
  - rewrite <- Hyz. intros _ _.
    destruct (N.compare_spec (N_of_ascii x) (N_of_ascii y)); (reflexivity || lia).
  - intros _ _.
    destruct (N.compare_spec (N_of_ascii x) (N_of_ascii z)); (reflexivity || lia).
Qed.

Lemma text_le_refl a : text_le a a.
Proof. destruct a; simpl; [apply leb_refl | exact I]. Qed.

Lemma text_le_trans a b c : text_le a b -> text_le b c -> text_le a c.
Proof.
  destruct a as [x|], b as [y|], c as [z|]; simpl; try tauto.
  apply leb_trans.
Qed.

Lemma max_text_bounds acc d :
  text_le acc (max_text acc d) /\ text_le d (max_text acc d)
  /\ (max_text acc d = acc \/ max_text acc d = d).
Proof.
  destruct acc as [a|], d as [b|]; simpl; auto using leb_refl.
  destruct (String.leb a b) eqn:Hab; simpl; auto using leb_refl.
  destruct (String.leb_total a b) as [Hle|Hle]; [congruence | auto using leb_refl].
Qed.

Lemma fold_max_text l :
  forall acc,
    (fold_left max_text l acc = acc \/ In (fold_left max_text l acc) l)
    /\ text_le acc (fold_left max_text l acc)
    /\ forall d, In d l -> text_le d (fold_left max_text l acc).
Proof.
  induction l as [|d l IH]; intros acc; simpl.
  - split; [auto|]. split; [apply text_le_refl | tauto].
  - destruct (IH (max_text acc d)) as (Hsrc & Hacc & Hall).
    destruct (max_text_bounds acc d) as (Ha & Hd & Hor).
    split; [|split].
    + destruct Hsrc as [->|Hin]; [|auto]. destruct Hor as [->| ->]; auto.
    + eapply text_le_trans; eassumption.
    + intros d' [<-|Hin]; [eapply text_le_trans; eassumption | auto].
Qed.

Lemma select_max_date_spec t tbl :
  (select_max_date t tbl = None
   \/ exists r, In r tbl /\ ticker r = Some t
                /\ date r = select_max_date t tbl)
  /\ forall r, In r tbl -> ticker r = Some t ->
       text_le (date r) (select_max_date t tbl).
Proof.
  unfold select_max_date.
  change (fun r : StockRow => match ticker r with
                              | Some t' => String.eqb t' t
                              | None => false
                              end) with (of_symbol t).
  destruct (fold_max_text (map date (filter (of_symbol t) tbl)) None)
    as (Hsrc & _ & Hall).
  split.
  - destruct Hsrc as [->|Hin]; [auto|right].
    apply in_map_iff in Hin. destruct Hin as (r & Hr & Hin).
    apply filter_In in Hin. destruct Hin as [Hin Ht].
    apply of_symbol_true in Ht. exists r. auto.
  - intros r Hin Ht. apply Hall. apply in_map. apply filter_In.
    split; [assumption | apply of_symbol_true; assumption].
Qed.

(** [get_latest_date] answers with a date that a row of the symbol
    carries, that is not the empty text and that no date of the symbol
    exceeds in the order of texts. It answers None only when every row of
    the symbol has a NULL or empty date, so also when there is none. *)
Theorem get_latest_date_is_max (t : string) (tbl : table) :
  (forall s, get_latest_date t tbl = Some s ->
     s <> ""
     /\ (exists r, In r tbl /\ ticker r = Some t /\ date r = Some s)
     /\ forall r d, In r tbl -> ticker r = Some t -> date r = Some d ->
          String.leb d s = true)
  /\ (get_latest_date t tbl = None ->
      forall r, In r tbl -> ticker r = Some t ->
        date r = None \/ date r = Some "").
Proof.
  destruct (select_max_date_spec t tbl) as [Hsrc Hmax].
  unfold get_latest_date. destruct (select_max_date t tbl) as [m|] eqn:Hm.
  - split.
    + intros s Hs.
      assert (Heq : m = s /\ s <> "").
      { destruct m as [|c m]; [discriminate|].
        injection Hs as <-. split; [reflexivity | discriminate]. }
      destruct Heq as [-> Hne]. split; [assumption|]. split.
      * destruct Hsrc as [Hf|Hr]; [discriminate | assumption].
      * intros r d Hin Ht Hd. specialize (Hmax r Hin Ht).
        rewrite Hd in Hmax. exact Hmax.
    + intros Hnone r Hin Ht.
      assert (m = "") as -> by (destruct m; [reflexivity | discriminate]).
      specialize (Hmax r Hin Ht). destruct (date r) as [d|]; [|auto].
      right. f_equal. apply leb_empty. exact Hmax.
  - split; [discriminate|]. intros _ r Hin Ht.
    specialize (Hmax r Hin Ht). destruct (date r); [destruct Hmax | auto].
Qed.

Lemma get_latest_date_is_max_aux t tbl s :
  get_latest_date t tbl = Some s ->
  s <> "" /\ exists r, In r tbl /\ ticker r = Some t /\ date r = Some s.
Proof.
  intros Hs. destruct (select_max_date_spec t tbl) as [Hsrc _].
  unfold get_latest_date in Hs.
  destruct (select_max_date t tbl) as [m|]; [|discriminate].
  assert (Heq : m = s /\ s <> "").
  { destruct m as [|c m]; [discriminate|].
    injection Hs as <-. split; [reflexivity | discriminate]. }
  destruct Heq as [-> Hne]. split; [assumption|].
  destruct Hsrc as [Hf|Hr]; [discriminate | assumption].
Qed.

Lemma get_latest_date_above t tbl r d :
  In r tbl -> ticker r = Some t -> date r = Some d -> d <> "" ->
  exists s, get_latest_date t tbl = Some s /\ String.leb d s = true.
Proof.
  intros Hin Ht Hd Hne.
  destruct (select_max_date_spec t tbl) as [_ Hmax].
  specialize (Hmax r Hin Ht). rewrite Hd in Hmax.
  unfold get_latest_date. destruct (select_max_date t tbl) as [m|];
    [|destruct Hmax].
  simpl in Hmax. destruct m as [|c m].
  - apply leb_empty in Hmax. congruence.
  - eauto.
Qed.

Lemma keeps_keys_trans tbl1 tbl2 tbl3 :
  keeps_keys tbl1 tbl2 -> keeps_keys tbl2 tbl3 -> keeps_keys tbl1 tbl3.
Proof.
  intros H12 H23 r Hr. destruct (H12 r Hr) as (r2 & Hr2 & Hk2).
  destruct (H23 r2 Hr2) as (r3 & Hr3 & Hk3). exists r3. split; congruence.
Qed.

Lemma keeps_keys_refl tbl : keeps_keys tbl tbl.
Proof. intros r Hr. exists r. auto. Qed.

Lemma reconcile_keeps_keys t df tbl : keeps_keys tbl (snd (reconcile t df tbl)).
Proof.
  destruct (reconcile_written t df tbl) as [->|(bound & Hb & _ & ->)];
    [apply keeps_keys_refl|].
  apply apply_all_keeps_keys. eapply Forall_impl; [|exact Hb].
  intros r [_ Hr]. exact Hr.
Qed.

(** The latest date of a symbol never moves backwards when a batch is
    reconciled, for this symbol or any other: the answer of
    [get_latest_date] afterwards is at least the answer before. *)
Theorem latest_date_never_decreases
    (t0 : string) (df : DataFrame) (tbl : table) (t s : string) :
  get_latest_date t tbl = Some s ->
  exists s', get_latest_date t (snd (reconcile t0 df tbl)) = Some s'
             /\ String.leb s s' = true.
Proof.
  intros Hlatest.
  destruct (get_latest_date_is_max_aux t tbl s Hlatest) as (Hne & (r & Hin & Ht & Hd)).
  destruct (reconcile_keeps_keys t0 df tbl r Hin) as (r' & Hin' & Hkey).
  unfold key_pair in Hkey. injection Hkey as Ht' Hd'.
  apply (get_latest_date_above t _ r' s); congruence.
Qed.

(* ---------------------------------------------------------------------- *)
(** *** The loop over the symbols                                          *)
(* ---------------------------------------------------------------------- *)

Lemma reconcile_raise t df tbl e tbl' :
  reconcile t df tbl = (Raised e, tbl') -> tbl' = tbl.
Proof.
  unfold reconcile, upsert_to_db, engine_begin.
  destruct (empty _); [discriminate|].
  destruct (insert_rows _ tbl) as [[u|e0] conn]; [discriminate|].
  intros [= _ <-]. reflexivity.
Qed.

(** A turn that raises leaves the table as it found it. *)
Lemma sync_ticker_raise yf_download today t tbl e tbl' log :
  sync_ticker yf_download today t tbl = (Raised e, tbl', log) -> tbl' = tbl.
Proof.
  unfold sync_ticker.
  destruct (plan today (get_latest_date t tbl)) as [[d| |a b]|e0];
    try (intros [= _ <- _]; reflexivity); try discriminate.
  destruct (yf_download t a (today + 1)) as [df0|e0];
    [|intros [= _ <- _]; reflexivity].
  destruct (empty df0); [discriminate|].
  destruct (reset_index df0) as [df|e0]; [|intros [= _ <- _]; reflexivity].
  destruct (reconcile t df tbl) as [[v|e0] tbl0] eqn:Hrec; [discriminate|].
  intros [= _ <- _]. exact (reconcile_raise _ _ _ _ _ Hrec).
Qed.

(** The loop over two lists of symbols run one after the other. *)
Lemma sync_all_app yf_download today ts1 ts2 tbl :
  sync_all yf_download today (ts1 ++ ts2) tbl
  = match sync_all yf_download today ts1 tbl with
    | (Returned _, tbl1, log1) =>
        let '(r, tbl2, log2) := sync_all yf_download today ts2 tbl1 in
        (r, tbl2, (log1 ++ log2)%list)
    | (Raised e, tbl1, log1) => (Raised e, tbl1, log1)
    end.
Proof.
  revert tbl. induction ts1 as [|t ts1 IH]; intros tbl.
  - simpl. destruct (sync_all yf_download today ts2 tbl) as [[r tbl2] log2].
    reflexivity.
  - simpl. destruct (sync_ticker yf_download today t tbl) as [[[u|e] tbl0] log0];
      [|reflexivity].
    rewrite IH.
    destruct (sync_all yf_download today ts1 tbl0) as [[[u1|e1] tbl1] log1];
      [|reflexivity].
    destruct (sync_all yf_download today ts2 tbl1) as [[r tbl2] log2].
    rewrite app_assoc. reflexivity.
Qed.

(** No turn of the loop is guarded: when the turn of one symbol raises,
    whether in the date parser, the provider, [reset_index] or the insert,
    the run ends there with that exception. What the symbols before it
    wrote stays, its own turn has changed nothing, and the symbols after
    it are not processed, whatever they are. *)
Theorem sync_all_stops_at_first_exception
    (yf_download : provider) (today : Z) (ts1 ts2 : list string) (t : string)
    (tbl tbl1 tbl2 : table) (log1 log2 : list message) (e : exn) :
  sync_all yf_download today ts1 tbl = (Returned tt, tbl1, log1) ->
  sync_ticker yf_download today t tbl1 = (Raised e, tbl2, log2) ->
  tbl2 = tbl1
  /\ sync_all yf_download today (ts1 ++ t :: ts2) tbl
     = (Raised e, tbl1, (log1 ++ log2)%list).
Proof.
  intros Hbefore Hturn.
  pose proof (sync_ticker_raise _ _ _ _ _ _ _ Hturn) as ->.
  split; [reflexivity|].
  rewrite sync_all_app, Hbefore. simpl. rewrite Hturn. reflexivity.
Qed.

Lemma sync_ticker_keeps_keys yf_download today t tbl :
  keeps_keys tbl (snd (fst (sync_ticker yf_download today t tbl))).
Proof.
  destruct (sync_ticker_table yf_download today t tbl) as [->|[df ->]];
    [apply keeps_keys_refl | apply reconcile_keeps_keys].
Qed.

Lemma sync_ticker_other_rows (p : StockRow -> bool) yf_download today t tbl :
  (forall r, p r = true -> ticker r <> Some t) ->
  filter p (snd (fst (sync_ticker yf_download today t tbl))) = filter p tbl.
Proof.
  intros Hp.
  destruct (sync_ticker_table yf_download today t tbl) as [->|[df ->]];
    [reflexivity | apply reconcile_other_rows; assumption].
Qed.

Lemma sync_all_keeps yf_download today (p : StockRow -> bool) ts tbl :
  (forall r t, In t ts -> p r = true -> ticker r <> Some t) ->
  keeps_keys tbl (snd (fst (sync_all yf_download today ts tbl)))
  /\ filter p (snd (fst (sync_all yf_download today ts tbl))) = filter p tbl.
Proof.
  revert tbl. induction ts as [|t ts IH]; intros tbl Hp.
  - split; [apply keeps_keys_refl | reflexivity].
  - simpl.
    pose proof (sync_ticker_keeps_keys yf_download today t tbl) as Hk.
    pose proof (sync_ticker_other_rows p yf_download today t tbl
                  (fun r => Hp r t (or_introl eq_refl))) as Hf.
    destruct (sync_ticker yf_download today t tbl) as [[[u|e] tbl0] log0];
      cbn [fst snd] in *; [|auto].
    destruct (IH tbl0 (fun r t' Hin => Hp r t' (or_intror Hin))) as [Hk' Hf'].
    destruct (sync_all yf_download today ts tbl0) as [[r tbl1] log1].
    cbn [fst snd] in *. split; [|congruence].
    eapply keeps_keys_trans; eassumption.
Qed.

Lemma listed_true ts r :
  listed ts r = true <-> exists t, In t ts /\ ticker r = Some t.
Proof.
  unfold listed. rewrite existsb_exists. split.
  - intros (t & Hin & Ht). apply of_symbol_true in Ht. eauto.
  - intros (t & Hin & Ht). exists t. split; [assumption|].
    apply of_symbol_true. assumption.
Qed.

(** A run of [download_data.py]. If the ticker file has neither column
    the run ends before the database is opened: the file is left as it
    is, without the table if it had none. Otherwise the table exists
    afterwards, however the run ends; every (ticker, date) pair stored
    before is still stored; and the rows of the symbols that the ticker
    file does not list, and the rows without a symbol, are exactly what
    they were. *)
Theorem download_data_keeps_history
    (df_tickers : csv_frame) (yf_download : provider) (today : Z) (db : database) :
  (forall e, load_tickers df_tickers = Raised e ->
     download_data df_tickers yf_download today db = (Raised e, db, []))
  /\ (forall ts, load_tickers df_tickers = Returned ts ->
      exists tbl',
        stock_data (snd (fst (download_data df_tickers yf_download today db)))
        = Some tbl'
        /\ tickers (snd (fst (download_data df_tickers yf_download today db)))
           = tickers db
        /\ keeps_keys (create_table db) tbl'
        /\ filter (fun r => negb (listed ts r)) tbl'
           = filter (fun r => negb (listed ts r)) (create_table db)).
Proof.
  unfold download_data. split.
  - intros e ->. reflexivity.
  - intros ts ->.
    destruct (sync_all_keeps yf_download today
                (fun r => negb (listed ts r)) ts (create_table db)) as [Hk Hf].
    { intros r t Hin Hr Ht. apply negb_true_iff in Hr.
      assert (listed ts r = true); [|congruence].
      apply listed_true. eauto. }
    destruct (sync_all yf_download today ts (create_table db)) as [[r tbl'] log].
    exists tbl'. cbn [fst snd stock_data tickers] in *. auto.
Qed.

(* ---------------------------------------------------------------------- *)
(** *** The ticker list                                                    *)
(* ---------------------------------------------------------------------- *)

Lemma unique_from_In x seen col :
  In x (unique_from seen col)
  <-> In x col /\ existsb (cell_eqb x) seen = false.
Proof.
  revert seen. induction col as [|c col IH]; intros seen;
    cbn [unique_from In]; [tauto|].
  destruct (existsb (cell_eqb c) seen) eqn:Hc.
  - rewrite IH. split; [tauto|]. intros [[->|Hin] Hx]; [congruence | auto].
  - cbn [In]. rewrite IH. cbn [existsb]. split.
    + intros [->|[Hin Hx]]; [auto|]. apply orb_false_iff in Hx. tauto.
    + intros [[->|Hin] Hx]; [auto|].
      destruct (cell_eqb x c) eqn:Hxc.
      * apply cell_eqb_eq in Hxc. auto.
      * right. auto.
Qed.

Lemma cell_eqb_refl x : cell_eqb x x = true.
Proof. apply cell_eqb_eq. reflexivity. Qed.

Lemma unique_from_NoDup seen col : NoDup (unique_from seen col).
Proof.
  revert seen. induction col as [|c col IH]; intros seen; simpl; [constructor|].
  destruct (existsb (cell_eqb c) seen); [apply IH|].
  constructor; [|apply IH]. intros Hin. apply unique_from_In in Hin.
  destruct Hin as [_ Hx]. cbn [existsb] in Hx.
  rewrite cell_eqb_refl in Hx. discriminate.
Qed.

Lemma tolist_In s col : ~ In None col -> In s (tolist col) -> In (Some s) col.
Proof.
  induction col as [|[c|] col IH]; simpl; [tauto | |tauto].
  intros Hnone [->|Hin]; [auto|]. right. apply IH; tauto.
Qed.

Lemma tolist_NoDup col : ~ In None col -> NoDup col -> NoDup (tolist col).
Proof.
  induction col as [|[c|] col IH]; simpl; intros Hnone Hnd; [constructor| |tauto].
  inversion Hnd as [|? ? Hnotin Hnd']; subst.
  constructor; [|apply IH; tauto].
  intros Hin. apply Hnotin. apply tolist_In; tauto.
Qed.

(** The ticker list holds no symbol twice, and it holds exactly the cells
    of the column stripped of surrounding white space and put in upper
    case, a missing cell counting as the text "nan": cells that differ in
    case or in surrounding white space only give one ticker. *)
Theorem tickers_are_clean (col : list (option string)) :
  NoDup (ticker_pipeline col)
  /\ forall t, In t (ticker_pipeline col)
       <-> exists cell, In cell col
             /\ t = upper (strip (match cell with Some s => s | None => "nan" end)).
Proof.
  set (cleaned := str_accessor upper (str_accessor strip (series_astype_str col))).
  assert (Hnone : ~ In None cleaned).
  { apply str_accessor_no_missing, str_accessor_no_missing, astype_str_no_missing. }
  assert (Hpipe : ticker_pipeline col = tolist (unique cleaned)).
  { unfold ticker_pipeline. fold cleaned.
    replace (dropna cleaned) with cleaned; [reflexivity|].
    symmetry. apply dropna_all_some. apply str_accessor_no_missing.
    apply astype_str_no_missing. }
  assert (Hunone : ~ In None (unique cleaned)).
  { intros Hin. apply unique_from_In in Hin. tauto. }
  assert (Hmem : forall t, In (Some t) cleaned
            <-> exists cell, In cell col
                  /\ t = upper (strip (match cell with Some s => s | None => "nan" end))).
  { intros t. unfold cleaned, str_accessor, series_astype_str.
    rewrite !map_map, in_map_iff. split.
    - intros (cell & Heq & Hin). exists cell. split; [assumption|].
      destruct cell; cbn [option_map] in Heq; injection Heq as <-; reflexivity.
    - intros (cell & Hin & ->). exists cell. split; [|assumption].
      destruct cell; reflexivity. }
  rewrite Hpipe. split.
  - apply tolist_NoDup; [assumption | apply unique_from_NoDup].
  - intros t. rewrite <- Hmem. split.
    + intros Hin. apply tolist_In in Hin; [|assumption].
      apply unique_from_In in Hin. tauto.
    + intros Hin. apply In_tolist. apply unique_from_In. auto.
Qed.

(* ---------------------------------------------------------------------- *)
(** *** The query of the sweep                                             *)
(* ---------------------------------------------------------------------- *)

Lemma cell_eqb_false a b : cell_eqb a b = false <-> a <> b.
Proof.
  split.
  - intros Hf ->. rewrite cell_eqb_refl in Hf. discriminate.
  - intros Hne. destruct (cell_eqb a b) eqn:Hab; [|reflexivity].
    apply cell_eqb_eq in Hab. contradiction.
Qed.

Lemma find_group_update_same k d groups :
  find_group k (update_group k d groups)
  = Some (max_text (match find_group k groups with
                    | Some v => v
                    | None => None
                    end) d).
Proof.
  unfold find_group. induction groups as [|[k' m] groups IH].
  - cbn [update_group find fst snd]. rewrite cell_eqb_refl. reflexivity.
  - cbn [update_group find fst snd]. destruct (cell_eqb k k') eqn:Hk.
    + cbn [find fst snd]. rewrite Hk. reflexivity.
    + cbn [find fst snd]. rewrite Hk. exact IH.
Qed.

Lemma find_group_update_other k0 k d groups :
  k0 <> k -> find_group k0 (update_group k d groups) = find_group k0 groups.
Proof.
  intros Hne. apply cell_eqb_false in Hne.
  unfold find_group. induction groups as [|[k' m] groups IH].
  - cbn [update_group find fst snd]. rewrite Hne. reflexivity.
  - cbn [update_group find fst snd]. destruct (cell_eqb k k') eqn:Hk.
    + apply cell_eqb_eq in Hk. subst k'. cbn [find fst snd].
      rewrite Hne. reflexivity.
    + cbn [find fst snd]. destruct (cell_eqb k0 k'); [reflexivity | exact IH].
Qed.

Lemma keys_update_group k d groups :
  map fst (update_group k d groups)
  = if existsb (cell_eqb k) (map fst groups) then map fst groups
    else (map fst groups ++ [k])%list.
Proof.
  induction groups as [|[k' m] groups IH]; [reflexivity|].
  cbn [update_group map fst existsb]. destruct (cell_eqb k k') eqn:Hk.
  - reflexivity.
  - cbn [map fst orb]. rewrite IH.
    destruct (existsb (cell_eqb k) (map fst groups)); reflexivity.
Qed.

Lemma update_group_NoDup k d groups :
  NoDup (map fst groups) -> NoDup (map fst (update_group k d groups)).
Proof.
  intros Hnd. rewrite keys_update_group.
  destruct (existsb (cell_eqb k) (map fst groups)) eqn:Hk; [assumption|].
  apply NoDup_app; [assumption | constructor; [intros [] | constructor] |].
  intros k' Hin [<-|[]].
  assert (existsb (cell_eqb k) (map fst groups) = true); [|congruence].
  apply existsb_exists. exists k. split; [assumption | apply cell_eqb_refl].
Qed.

Lemma select_last_dates_from tbl :
  forall groups k,
    let result :=
      fold_left (fun groups r => update_group (ticker r) (date r) groups)
                tbl groups in
    (NoDup (map fst groups) -> NoDup (map fst result))
    /\ (find_group k result = None
        <-> find_group k groups = None /\ group_dates k tbl = [])
    /\ match find_group k result with Some v => v | None => None end
       = fold_left max_text (group_dates k tbl)
           (match find_group k groups with Some v => v | None => None end).
Proof.
  induction tbl as [|r tbl IH]; intros groups k.
  - cbn. split; [auto|]. split; [tauto | reflexivity].
  - cbn [fold_left]. cbv zeta.
    destruct (IH (update_group (ticker r) (date r) groups) k) as (Hnd & Hnone & Hval).
    cbv zeta in Hnd, Hnone, Hval.
    unfold group_dates in *. cbn [filter].
    split; [intros Hg; apply Hnd, update_group_NoDup, Hg|].
    destruct (cell_eqb (ticker r) k) eqn:Hk.
    + apply cell_eqb_eq in Hk. subst k. cbn [map fold_left].
      rewrite find_group_update_same in Hnone, Hval. split; [|exact Hval].
      rewrite Hnone. split; [intros [Hf _]; discriminate | intros [_ Hf]; discriminate].
    + apply cell_eqb_false in Hk.
      rewrite find_group_update_other in Hnone, Hval by congruence.
      split; assumption.
Qed.

Lemma find_group_In k v groups : find_group k groups = Some v -> In (k, v) groups.
Proof.
  unfold find_group. destruct (find _ groups) as [[k' m]|] eqn:Hfind; [|discriminate].
  intros [= <-]. apply find_some in Hfind. destruct Hfind as [Hin Hk].
  apply cell_eqb_eq in Hk. cbn [fst snd] in *. subst k'. assumption.
Qed.

Lemma In_find_group k v groups :
  NoDup (map fst groups) -> In (k, v) groups -> find_group k groups = Some v.
Proof.
  unfold find_group. induction groups as [|[k' m] groups IH]; intros Hnd Hin;
    [destruct Hin|].
  cbn [map fst] in Hnd. inversion Hnd as [|? ? Hnotin Hnd']; subst.
  cbn [find fst snd]. destruct Hin as [[= -> ->]|Hin].
  - rewrite cell_eqb_refl. reflexivity.
  - destruct (cell_eqb k k') eqn:Hk; [|apply IH; assumption].
    apply cell_eqb_eq in Hk. subst k'. exfalso. apply Hnotin.
    apply in_map_iff. exists (k, v). auto.
Qed.

Lemma group_dates_symbol t tbl :
  fold_left max_text (group_dates (Some t) tbl) None = select_max_date t tbl.
Proof.
  reflexivity.
Qed.

Lemma select_last_dates_symbol t tbl v :
  In (Some t, v) (select_last_dates tbl)
  <-> v = select_max_date t tbl /\ exists r, In r tbl /\ ticker r = Some t.
Proof.
  destruct (select_last_dates_from tbl [] (Some t)) as (Hnd & Hnone & Hval).
  cbv zeta in Hnd, Hnone, Hval. fold (select_last_dates tbl) in *.
  cbn [find_group find] in Hnone, Hval. rewrite group_dates_symbol in Hval.
  assert (Hrows : group_dates (Some t) tbl <> []
                  <-> exists r, In r tbl /\ ticker r = Some t).
  { unfold group_dates. split.
    - intros Hne. destruct (filter _ tbl) as [|r l] eqn:Hf;
        [exfalso; apply Hne; reflexivity|].
      assert (Hin : In r (filter (fun r => cell_eqb (ticker r) (Some t)) tbl))
        by (rewrite Hf; left; reflexivity).
      apply filter_In in Hin. destruct Hin as [Hin Hk].
      apply cell_eqb_eq in Hk. eauto.
    - intros (r & Hin & Ht) Hempty.
      assert (Hr : In r (filter (fun r => cell_eqb (ticker r) (Some t)) tbl)).
      { apply filter_In. split; [assumption|]. rewrite Ht. apply cell_eqb_refl. }
      apply (in_map date) in Hr. rewrite Hempty in Hr. destruct Hr. }
  split.
  - intros Hin. apply (In_find_group _ _ _ (Hnd (NoDup_nil _))) in Hin.
    rewrite Hin in Hval. split; [assumption|]. apply Hrows.
    intros Hempty. assert (find_group (Some t) (select_last_dates tbl) = None)
      by (apply Hnone; auto). congruence.
  - intros [-> Hex]. apply find_group_In.
    destruct (find_group (Some t) (select_last_dates tbl)) as [v|] eqn:Hfind;
      [congruence|].
    exfalso. apply Hrows in Hex. apply Hex. apply Hnone. reflexivity.
Qed.

(** The query of the sweep and the query of the downloader agree: the
    sweep sees every stored symbol once, and with the latest date that
    [SELECT MAX(date) ... WHERE ticker=:ticker] gives for it. *)
Theorem sweep_sees_latest_dates (tbl : table) :
  NoDup (map fst (select_last_dates tbl))
  /\ forall t v,
       In (Some t, v) (select_last_dates tbl)
       <-> v = select_max_date t tbl /\ exists r, In r tbl /\ ticker r = Some t.
Proof.
  split.
  - destruct (select_last_dates_from tbl [] None) as (Hnd & _ & _).
    apply Hnd. constructor.
  - intros t v. apply select_last_dates_symbol.
Qed.

Lemma to_dates_forward groups df k s :
  to_dates groups = Returned df -> In (k, Some s) groups ->
  exists D, to_datetime s = Some D /\ In (k, Some D) df.
Proof.
  revert df. induction groups as [|[k' [s'|]] groups IH]; intros df Hdf Hin;
    [destruct Hin | |]; cbn [to_dates] in Hdf.
  - destruct (to_datetime s') as [D'|] eqn:HD'; [|discriminate].
    destruct (to_dates groups) as [ds|e]; [|discriminate].
    cbn [bind] in Hdf. injection Hdf as <-.
    destruct Hin as [[= -> ->]|Hin].
    + exists D'. split; [assumption | left; reflexivity].
    + destruct (IH ds eq_refl Hin) as (D & HD & HinD).
      exists D. split; [assumption | right; assumption].
  - destruct (to_dates groups) as [ds|e]; [|discriminate].
    cbn [bind] in Hdf. injection Hdf as <-.
    destruct Hin as [Hf|Hin]; [discriminate|].
    destruct (IH ds eq_refl Hin) as (D & HD & HinD).
    exists D. split; [assumption | right; assumption].
Qed.

Lemma to_dates_backward groups df k D :
  to_dates groups = Returned df -> In (k, Some D) df ->
  exists s, In (k, Some s) groups /\ to_datetime s = Some D.
Proof.
  revert df. induction groups as [|[k' [s'|]] groups IH]; intros df Hdf Hin;
    cbn [to_dates] in Hdf.
  - injection Hdf as <-. destruct Hin.
  - destruct (to_datetime s') as [D'|] eqn:HD'; [|discriminate].
    destruct (to_dates groups) as [ds|e]; [|discriminate].
    cbn [bind] in Hdf. injection Hdf as <-.
    destruct Hin as [[= -> ->]|Hin].
    + exists s'. split; [left; reflexivity | assumption].
    + destruct (IH ds eq_refl Hin) as (s & Hs & HD).
      exists s. split; [right; assumption | assumption].
  - destruct (to_dates groups) as [ds|e]; [|discriminate].
    cbn [bind] in Hdf. injection Hdf as <-.
    destruct Hin as [Hf|Hin]; [discriminate|].
    destruct (IH ds eq_refl Hin) as (s & Hs & HD).
    exists s. split; [right; assumption | assumption].
Qed.

(** The two scripts use the same threshold and the same strict test: when
    the sweep gets through its date conversion (and the date parser
    rejects the empty text), it lists a symbol as abandoned exactly when
    the downloader, run on the same day on the same table, skips that
    symbol as abandoned. *)
Theorem sweep_lists_what_the_loop_skips
    (today : Z) (tbl : table) (df : list (option string * option Z)) (t : string) :
  to_dates (select_last_dates tbl) = Returned df ->
  to_datetime "" = None ->
  (exists last, In (Some t, last) (filter (is_abandoned today) df))
  <-> exists days, plan today (get_latest_date t tbl)
                   = Returned (SKIP_ABANDONED days).
Proof.
  intros Hdf Hempty. split.
  - intros (last & Hin). apply abandoned_selection in Hin.
    destruct Hin as (Hin & D & -> & Hold).
    destruct (to_dates_backward _ _ _ _ Hdf Hin) as (s & Hs & HD).
    apply select_last_dates_symbol in Hs. destruct Hs as [Hs _].
    assert (Hne : s <> "") by (intros ->; congruence).
    assert (Hlatest : get_latest_date t tbl = Some s).
    { unfold get_latest_date. rewrite <- Hs.
      destruct s; [congruence | reflexivity]. }
    exists (today - D). rewrite Hlatest, (plan_latest today s D Hne HD).
    unfold cutoff_days in Hold. unfold abandon_days.
    rewrite gtb_true by lia. reflexivity.
  - intros (days & Hplan).
    destruct (get_latest_date t tbl) as [s|] eqn:Hlatest;
      [|unfold plan in Hplan; discriminate].
    destruct (get_latest_date_is_max_aux t tbl s Hlatest) as (Hne & r & Hin & Ht & _).
    assert (Hs : select_max_date t tbl = Some s).
    { unfold get_latest_date in Hlatest.
      destruct (select_max_date t tbl) as [[|c m]|]; congruence. }
    assert (Hgroup : In (Some t, Some s) (select_last_dates tbl)).
    { apply select_last_dates_symbol. split; [congruence | eauto]. }
    destruct (to_dates_forward _ _ _ _ Hdf Hgroup) as (D & HD & HinD).
    rewrite (plan_latest today s D Hne HD) in Hplan.
    unfold abandon_days in Hplan.
    destruct (Z.gtb_spec (today - D) 180) as [Hold|Hfresh].
    + exists (Some D). apply abandoned_selection. split; [assumption|].
      exists D. unfold cutoff_days. split; [reflexivity | lia].
    + destruct (D + 1 >? today); discriminate.
Qed.

(** [remove_abondoned_data.py] as it is written changes nothing in the
    database, neither in [stock_data] nor in [tickers], however it ends;
    and when the table [tickers] exists it ends without an exception only
    if no symbol is selected. *)
Theorem sweep_never_deletes (today : Z) (db : database) :
  snd (fst (remove_abondoned_data today db)) = db
  /\ forall tbl df tk,
       stock_data db = Some tbl -> tickers db = Some tk ->
       to_dates (select_last_dates tbl) = Returned df ->
       (fst (fst (remove_abondoned_data today db)) = Returned tt
        <-> filter (is_abandoned today) df = []).
Proof.
  split.
  - unfold remove_abondoned_data, sweep.
    destruct (stock_data db) as [tbl|] eqn:Htbl; [|reflexivity].
    destruct (to_dates (select_last_dates tbl)) as [df|e]; [|reflexivity].
    destruct (existsb _ (table_names db)); [|reflexivity].
    destruct (tickers db) as [tk|] eqn:Htk; [|reflexivity].
    destruct (filter (is_abandoned today) df) as [|g gs].
    + cbn. destruct db as [sd tks]. cbn in *. congruence.
    + reflexivity.
  - intros tbl df tk Htbl Htk Hdf. unfold remove_abondoned_data, sweep, table_names.
    rewrite Htbl, Hdf, Htk. cbn [existsb app String.eqb Ascii.eqb Bool.eqb orb].
    destruct (filter (is_abandoned today) df) as [|g gs].
    + cbn. tauto.
    + cbn. split; discriminate.
Qed.

End Properties.

(* ====================================================================== *)
(** ** The properties at concrete inputs                                   *)
(* ====================================================================== *)

Lemma abandonment_boundary_witness :
  let L := sample_libraries in
  let D := Calendar.ymd2ord 2023 1 1 in
  get_latest_date "BBB" bbb_table = Some "2023-01-01"
  /\ to_datetime "2023-01-01" = Some D
  /\ plan (D + 180) (get_latest_date "BBB" bbb_table)
     = Returned (FETCH (D + 1) (D + 180))
  /\ sync_ticker no_provider (D + 181) "BBB" bbb_table
     = (Returned tt, bbb_table, [Processing "BBB"; Abandoned 181]).
Proof.
  intros L D.
  pose proof (abandonment_boundary (H := L) no_provider (D + 180) D "BBB"
                "2023-01-01" bbb_table eq_refl eq_refl) as [Hfetch _].
  pose proof (abandonment_boundary (H := L) no_provider (D + 181) D "BBB"
                "2023-01-01" bbb_table eq_refl eq_refl) as [_ Hskip].
  split; [reflexivity|]. split; [reflexivity|]. split.
  - apply Hfetch. reflexivity.
  - apply Hskip. vm_compute. discriminate.
Defined.

Lemma planned_fetch_range_witness :
  let L := sample_libraries in
  let today := Calendar.ymd2ord 2024 1 10 in
  let D := Calendar.ymd2ord 2023 1 1 in
  plan today (get_latest_date "AAA" bbb_table)
  = Returned (FETCH (today - years * 365) today)
  /\ get_latest_date "BBB" bbb_table = Some "2023-01-01"
  /\ to_datetime "2023-01-01" = Some D
  /\ plan (D + 1) (get_latest_date "BBB" bbb_table)
     = Returned (FETCH (D + 1) (D + 1))
  /\ sync_ticker no_provider D "BBB" bbb_table
     = (Returned tt, bbb_table, [Processing "BBB"; AlreadyUpToDate]).
Proof.
  intros L today D.
  destruct (planned_fetch_range (H := L) no_provider today "AAA" bbb_table)
    as [Hnone _].
  destruct (planned_fetch_range (H := L) no_provider (D + 1) "BBB" bbb_table)
    as [_ Hnext].
  destruct (planned_fetch_range (H := L) no_provider D "BBB" bbb_table)
    as [_ Hsame].
  split.
  - apply Hnone. intros r [<-|[]]. discriminate.
  - split; [reflexivity|]. split; [reflexivity|]. split.
    + apply (Hnext "2023-01-01" D); reflexivity || (vm_compute; discriminate).
    + apply (Hsame "2023-01-01" D); reflexivity || (vm_compute; discriminate).
Defined.

Lemma upsert_atomic_witness :
  let L := sample_libraries in
  empty broken_batch = false
  /\ Exists fails_to_bind (rows (normalize broken_batch))
  /\ exists e, upsert_to_db broken_batch bbb_table = (Raised e, bbb_table).
Proof.
  intros L.
  assert (Hfails : Exists fails_to_bind (rows (normalize broken_batch))).
  { apply Exists_cons_tl, Exists_cons_hd.
    exists (InterfaceError "Error binding parameter: type is not supported").
    reflexivity. }
  split; [reflexivity|]. split; [exact Hfails|].
  destruct (upsert_atomic (H := L) broken_batch bbb_table eq_refl)
    as (_ & Hrollback & _).
  exact (Hrollback Hfails).
Defined.

(** C6, as stated, at a batch of two rows and at an empty batch: two rows
    are written and None is returned, not 2; nothing is written and None
    is returned, not 0. *)
Lemma upsert_returns_count_counterexample :
  let L := sample_libraries in
  (empty aaa_batch = false
   /\ List.length (rows aaa_batch) = 2%nat
   /\ upsert_to_db aaa_batch [] = (Returned PyNone, aaa_rows)
   /\ PyNone <> PyInt 2)
  /\ (empty no_rows = true
      /\ upsert_to_db no_rows bbb_table = (Returned PyNone, bbb_table)
      /\ PyNone <> PyInt 0).
Proof.
  intros L. repeat split; try reflexivity; discriminate.
Defined.

Lemma upsert_returns_none_witness :
  let L := sample_libraries in
  empty aaa_batch = false
  /\ Forall2 binds (rows (normalize aaa_batch)) aaa_rows
  /\ List.length aaa_rows = List.length (rows aaa_batch)
  /\ upsert_to_db aaa_batch [] = (Returned PyNone, apply_all aaa_rows []).
Proof.
  intros L.
  assert (Hall : Forall2 binds (rows (normalize aaa_batch)) aaa_rows).
  { repeat constructor. }
  split; [reflexivity|]. split; [exact Hall|].
  destruct (upsert_returns_none (H := L) aaa_batch []) as (_ & _ & Hrows).
  exact (Hrows eq_refl aaa_rows Hall).
Defined.


Lemma primary_key_unique_witness :
  let L := sample_libraries in
  let new := bar "BBB" "2023-01-01" (Real f_2_5) in
  primary_key new <> None
  /\ unique_keys bbb_table
  /\ In (key_pair new) (map key_pair bbb_table)
  /\ insert_or_replace new bbb_table = [new]
  /\ unique_keys (insert_or_replace new bbb_table)
  /\ List.length (insert_or_replace new bbb_table) = List.length bbb_table
  /\ unique_keys (snd (reconcile "AAA" aaa_batch bbb_table)).
Proof.
  intros L new.
  destruct (primary_key_unique (H := L)) as (Hempty & Hinsert & Hrec & _ & _).
  assert (Hk : primary_key new <> None) by discriminate.
  assert (Hu : unique_keys bbb_table).
  { apply (Hinsert (bar "BBB" "2023-01-01" (Real f_1_0)) []);
      [discriminate | exact Hempty]. }
  assert (Hin : In (key_pair new) (map key_pair bbb_table))
    by (left; reflexivity).
  destruct (Hinsert new bbb_table Hk Hu) as (Hu' & _ & _ & Hlen).
  split; [exact Hk|]. split; [exact Hu|]. split; [exact Hin|].
  split; [reflexivity|]. split; [exact Hu'|]. split; [exact (Hlen Hin)|].
  apply Hrec. exact Hu.
Defined.

Lemma sweep_delete_raises_witness :
  let L := sample_libraries in
  let today := Calendar.ymd2ord 2024 1 10 in
  let selected := [(Some "OLD", Some (today - 181)); (Some "GONE", Some (today - 500))] in
  remove_abondoned_data today swept_database
  = (Raised (NameError "text"), swept_database, [AbandonedStocks selected]).
Proof.
  intros L today selected.
  assert (Hne : filter (is_abandoned today)
                  [(Some "NEW", Some (today - 10)); (Some "OLD", Some (today - 181));
                   (Some "GONE", Some (today - 500))] <> [])
    by (vm_compute; discriminate).
  exact (sweep_delete_raises (H := L) today swept_database
           (create_table swept_database)
           [{| symbol := Some "NEW"; other_columns := [] |};
            {| symbol := Some "OLD"; other_columns := [] |};
            {| symbol := Some "GONE"; other_columns := [] |}]
           [(Some "NEW", Some (today - 10)); (Some "OLD", Some (today - 181));
            (Some "GONE", Some (today - 500))]
           eq_refl eq_refl eq_refl Hne).
Defined.

Lemma missing_ticker_kept_witness :
  In None [Some " aapl"; None; Some "msft "; Some "AAPL"]
  /\ ticker_pipeline [Some " aapl"; None; Some "msft "; Some "AAPL"]
     = ["AAPL"; "NAN"; "MSFT"]
  /\ In "NAN" (ticker_pipeline [Some " aapl"; None; Some "msft "; Some "AAPL"]).
Proof.
  assert (Hin : In None [Some " aapl"; None; Some "msft "; Some "AAPL"])
    by (right; left; reflexivity).
  split; [exact Hin|]. split; [reflexivity|].
  destruct (missing_ticker_kept [Some " aapl"; None; Some "msft "; Some "AAPL"])
    as (_ & _ & _ & Hnan).
  exact (Hnan Hin).
Defined.

(** The scenarios of the specification, run. *)

Example first_sync_of_a_symbol :
  let L := sample_libraries in
  let today := Calendar.ymd2ord 2024 1 10 in
  Calendar.isoformat (start_full today) = "2004-01-15"
  /\ sync_ticker aaa_provider today "AAA" []
     = (Returned tt, aaa_rows,
        [Processing "AAA"; Fetching (start_full today) today;
         AddedUpdated 2 "AAA"])
  /\ reconcile "AAA" aaa_batch aaa_rows = (Returned PyNone, aaa_rows).
Proof. intros L today. repeat split. Qed.

Example stale_symbol_is_skipped :
  let L := sample_libraries in
  let today := Calendar.ymd2ord 2023 9 1 in
  sync_ticker no_provider today "BBB" bbb_table
  = (Returned tt, bbb_table, [Processing "BBB"; Abandoned 243]).
Proof. reflexivity. Qed.

Example sweep_with_text_imported :
  let L := sample_libraries in
  let today := Calendar.ymd2ord 2024 1 10 in
  sweep ("text" :: module_names) today swept_database
  = (Returned tt,
     {| stock_data := stock_data swept_database;
        tickers := Some [{| symbol := Some "NEW"; other_columns := [] |}] |},
     [AbandonedStocks [(Some "OLD", Some (today - 181));
                       (Some "GONE", Some (today - 500))];
      Deleted (Some "OLD"); Deleted (Some "GONE")]).
Proof. reflexivity. Qed.

Example rollback_discards_written_rows :
  let L := sample_libraries in
  List.length (snd (insert_rows (rows (normalize broken_batch)) bbb_table)) = 2%nat
  /\ snd (upsert_to_db broken_batch bbb_table) = bbb_table.
Proof. split; reflexivity. Qed.

(** Why the stamp matters: without a ticker the key holds a NULL, the
    row conflicts with nothing and a second call writes it again. *)
Example unstamped_batch_is_written_twice :
  let L := sample_libraries in
  List.length (snd (upsert_to_db unstamped_batch [])) = 1%nat
  /\ List.length
       (snd (upsert_to_db unstamped_batch (snd (upsert_to_db unstamped_batch []))))
     = 2%nat.
Proof. split; reflexivity. Qed.

Example load_tickers_with_missing_cell :
  load_tickers ticker_file = Returned ["AAPL"; "NAN"; "MSFT"]
  /\ load_tickers [("symbol", [Some "ibm"])] = Returned ["IBM"]
  /\ load_tickers [("name", [Some "ibm"])] = Raised (KeyError "symbol").
Proof. repeat split. Qed.
